(** * GFlights: the flight-search service (FlightService) and its callers

    A shallow embedding of [searchFlights], [getPopularRoutes],
    [saveRecentSearch], [getRecentSearches] and [clearRecentSearches] of the
    flight service (the version that posts to the backend through [api]), of
    the [searchFlights] action of the flight context and of the
    [handleSearch] handler of the search screen, with the properties of the
    request normalisation, response shaping and local cache that the
    specification states.

    Conventions of the model.
    - A JavaScript string is a [string].  What the engine does with the
      characters of a string is a parameter of the model: its upper-casing
      ([toUpperCase]), the length in code units of a query that the user
      types ([codeUnits]) and its reading as a date ([dateValid]).  White
      space is that of ASCII.
    - A JavaScript number is an integer ([Z]); it prints in decimal.
    - Values of type [any] (HTTP bodies, parsed storage content) are [json]
      values; a property read that yields [undefined] is [None].
    - [console.log], [console.warn] and [console.error] are not modelled. *)

From Stdlib Require Import ZArith Ascii String List Bool Lia.
From stdpp Require Import base option strings gmap pretty.

Import ListNotations.
Set Warnings "-register-all".
Local Open Scope string_scope.
Local Open Scope Z_scope.

(** ** JavaScript values *)

Inductive json : Type :=
  | JNull
  | JBool (b : bool)
  | JNum (n : Z)
  | JStr (s : string)
  | JArr (items : list json)
  | JObj (fields : list (string * json)).

Module Js.

(** [!s] for a string is [s === ""]. *)
Definition emptyb (s : string) : bool :=
  match s with
  | EmptyString => true
  | String _ _ => false
  end.

(** [a || b] on strings. *)
Definition orElse (a b : string) : string :=
  if emptyb a then b else a.

(** Truthiness of an optional string ([undefined] and [""] are falsy). *)
Definition truthyStr (o : option string) : bool :=
  match o with
  | Some s => negb (emptyb s)
  | None => false
  end.

(** ToBoolean on a value. *)
Definition truthy (v : json) : bool :=
  match v with
  | JNull => false
  | JBool b => b
  | JNum n => negb (n =? 0)
  | JStr s => negb (emptyb s)
  | JArr _ => true
  | JObj _ => true
  end.

(** Truthiness of the result of a property read. *)
Definition truthyOpt (o : option json) : bool :=
  match o with
  | Some v => truthy v
  | None => false
  end.

(** Own property [k] of an object written as a list of fields: as in
    [JSON.parse], the last field of that name is the one that counts. *)
Definition field (k : string) (fields : list (string * json)) : option json :=
  fold_left (fun acc kv => if String.eqb (fst kv) k then Some (snd kv) else acc)
            fields None.

(** [v.k] for a value [v] that is neither [null] nor [undefined] and a name
    [k] other than ["length"]: objects answer with their field, every other
    value with [undefined]. *)
Definition prop (k : string) (v : json) : option json :=
  match v with
  | JObj fields => field k fields
  | _ => None
  end.

(** [v.length]. *)
Definition lengthOf (v : json) : option json :=
  match v with
  | JArr items => Some (JNum (Z.of_nat (length items)))
  | JStr s => Some (JNum (Z.of_nat (String.length s)))
  | JObj fields => field "length" fields
  | _ => None
  end.

(** [n.toString()] for an integer. *)
Definition numToString (n : Z) : string := pretty n.

Definition join (sep : string) (parts : list string) : string :=
  match parts with
  | [] => ""
  | p :: ps => fold_left (fun acc q => acc +:+ sep +:+ q) ps p
  end.

(** ToString, as a template literal applies it. *)
Fixpoint toString (v : json) : string :=
  match v with
  | JNull => "null"
  | JBool true => "true"
  | JBool false => "false"
  | JNum n => numToString n
  | JStr s => s
  | JArr items =>
      join "," (map (fun x => match x with
                              | JNull => ""
                              | _ => toString x
                              end) items)
  | JObj _ => "[object Object]"
  end.

(** The upper-casing of ASCII text.  [String.prototype.toUpperCase] itself is
    a parameter of the service; this is the instance with which the service
    is run on requests written in ASCII. *)
Definition upperChar (c : ascii) : ascii :=
  let n := nat_of_ascii c in
  if (Nat.leb 97 n && Nat.leb n 122)%bool then ascii_of_nat (n - 32) else c.

Fixpoint asciiUpperCase (s : string) : string :=
  match s with
  | EmptyString => EmptyString
  | String c t => String (upperChar c) (asciiUpperCase t)
  end.



(** White space and line terminators of ASCII: TAB, LF, VT, FF, CR, SP. *)
Definition isSpace (c : ascii) : bool :=
  let n := nat_of_ascii c in
  ((Nat.leb 9 n && Nat.leb n 13) || Nat.eqb n 32)%bool.

Fixpoint trimStart (s : string) : string :=
  match s with
  | EmptyString => EmptyString
  | String c t => if isSpace c then trimStart t else s
  end.

(** [trimEnd] drops the trailing white space: a suffix is dropped when all
    of it is white space. *)
Fixpoint trimEnd (s : string) : string :=
  match s with
  | EmptyString => EmptyString
  | String c t =>
      match trimEnd t with
      | EmptyString => if isSpace c then EmptyString else String c EmptyString
      | r => String c r
      end
  end.

(** [String.prototype.trim]. *)
Definition trim (s : string) : string := trimEnd (trimStart s).

End Js.

(** ** Data model (types/flight.ts) *)

(** [FlightSearchRequest].  Fields marked [?] in the interface are options.
    [travelClass] is kept as the string [convertCabinClass] receives. *)
Record FlightSearchRequest : Type := {
  originLocationCode : string;
  destinationLocationCode : string;
  originEntityId : option string;
  destinationEntityId : option string;
  departureDate : string;
  returnDate : option string;
  adults : Z;
  children : option Z;
  infants : option Z;
  travelClass : option string;
  currencyCode : option string
}.



(** The object [backendRequest] that [searchFlights] posts.  The two entity
    identifiers are copied from the request as they are, and [returnDate] is
    a field that is only sometimes set. *)
Record BackendRequest : Type := {
  originSkyId : string;
  destinationSkyId : string;
  backend_originEntityId : option string;
  backend_destinationEntityId : option string;
  backend_departureDate : string;
  cabinClass : string;
  backend_adults : string;
  backend_children : string;
  backend_infants : string;
  sortBy : string;
  currency : string;
  market : string;
  countryCode : string;
  backend_returnDate : option string
}.

(** [FlightSearchResponse], with [meta.count] and [meta.links.self]
    flattened.  The three payload fields hold whatever the upstream sent. *)
Record FlightSearchResponse : Type := {
  data : json;
  meta_count : json;
  meta_links_self : string;
  dictionaries : json
}.

Record RecentSearch : Type := {
  id : string;
  origin : string;
  destination : string;
  recent_departureDate : string;
  recent_returnDate : option string;
  passengers : Z;
  searchedAt : string
}.

Record PopularRoute : Type := {
  route_origin : string;
  route_destination : string;
  originName : string;
  destinationName : string;
  averagePrice : option string;
  popularity : Z
}.

(** What [JSON.stringify] keeps of a record: a field that is [undefined] is
    left out. *)
Definition optField (k : string) (o : option string) : list (string * json) :=
  match o with
  | Some s => [(k, JStr s)]
  | None => []
  end.

Definition RecentSearch_json (r : RecentSearch) : json :=
  JObj ([("id", JStr (id r));
         ("origin", JStr (origin r));
         ("destination", JStr (destination r));
         ("departureDate", JStr (recent_departureDate r))]
        ++ optField "returnDate" (recent_returnDate r)
        ++ [("passengers", JNum (passengers r));
            ("searchedAt", JStr (searchedAt r))]).

Definition PopularRoute_json (r : PopularRoute) : json :=
  JObj ([("origin", JStr (route_origin r));
         ("destination", JStr (route_destination r));
         ("originName", JStr (originName r));
         ("destinationName", JStr (destinationName r))]
        ++ optField "averagePrice" (averagePrice r)
        ++ [("popularity", JNum (popularity r))]).

(** ** The world outside the service *)

(** The answer of axios to a request. *)
Record HttpResponse : Type := {
  resp_status : Z;
  resp_data : json
}.

(** [api.post] either resolves with a response or rejects with an error that
    has a message and, when the server answered, the response. *)
Inductive PostResult : Type :=
  | Resolved (response : HttpResponse)
  | Rejected (message : string) (response : option HttpResponse).

(** An error as the [catch] of [searchFlights] sees it. *)
Record Caught : Type := {
  caught_message : string;
  caught_response : option HttpResponse
}.

(** The text kept under a storage key, seen through [JSON.parse]: either the
    serialization of a value, or text that [JSON.parse] rejects. *)
Inductive StoredText : Type :=
  | Serialized (v : json)
  | Malformed (raw : string).

Definition JSON_stringify (v : json) : StoredText := Serialized v.

(** [None] stands for the [SyntaxError] that [JSON.parse] throws. *)
Definition JSON_parse (t : StoredText) : option json :=
  match t with
  | Serialized v => Some v
  | Malformed _ => None
  end.

(** Truthiness of a stored text: only the empty text is falsy, and the
    serialization of a value is never empty. *)
Definition textTruthy (t : StoredText) : bool :=
  match t with
  | Serialized _ => true
  | Malformed raw => negb (Js.emptyb raw)
  end.

(** What the service does to the outside, most recent first. *)
Inductive Effect : Type :=
  | Post (url : string) (body : BackendRequest)
  | GetItem (key : string)
  | SetItem (key : string) (text : StoredText)
  | RemoveItem (key : string).

Record World : Type := {
  storage : gmap string StoredText;
  effects : list Effect
}.

(** Which AsyncStorage calls of one service call are rejected. *)
Record Faults : Type := {
  getItemFails : bool;
  setItemFails : bool;
  removeItemFails : bool
}.

Definition reliable : Faults :=
  {| getItemFails := false; setItemFails := false; removeItemFails := false |}.

(** The two readings of the clock in [saveRecentSearch]: [Date.now()] and
    [new Date().toISOString()]. *)
Record Clock : Type := {
  nowMillis : Z;
  nowISOString : string
}.

(** A call either returns a value or throws an [Error] with a message. *)
Inductive Outcome (A : Type) : Type :=
  | Returned (a : A)
  | Thrown (message : string).

Arguments Returned {A} a.
Arguments Thrown {A} message.

Definition logEffect (e : Effect) (w : World) : World :=
  {| storage := storage w; effects := e :: effects w |}.

Module AsyncStorage.

(** [None] stands for a rejected promise. *)
Definition getItem (io : Faults) (key : string) (w : World)
  : World * option (option StoredText) :=
  let w' := logEffect (GetItem key) w in
  if getItemFails io then (w', None) else (w', Some (storage w !! key)).

(** [false] stands for a rejected promise; nothing is stored then. *)
Definition setItem (io : Faults) (key : string) (text : StoredText) (w : World)
  : World * bool :=
  if setItemFails io then (logEffect (SetItem key text) w, false)
  else ({| storage := <[key := text]> (storage w);
           effects := SetItem key text :: effects w |}, true).

Definition removeItem (io : Faults) (key : string) (w : World) : World * bool :=
  if removeItemFails io then (logEffect (RemoveItem key) w, false)
  else ({| storage := delete key (storage w);
           effects := RemoveItem key :: effects w |}, true).

End AsyncStorage.

(** ** A date parser to run the service with

    [new Date(s)] is the engine's; the service only asks whether the result is
    a valid date, and takes that test as a parameter.  [isoCalendarDate] is an
    instance to evaluate the service on concrete requests: it accepts the
    date-only form [YYYY-MM-DD] of the ECMAScript date-time string format, for
    a month 01..12 and a day of that month. *)

Definition digitValue (c : ascii) : option Z :=
  let n := Z.of_nat (nat_of_ascii c) in
  if (48 <=? n) && (n <=? 57) then Some (n - 48) else None.

Fixpoint digitsValue (acc : Z) (s : string) : option Z :=
  match s with
  | EmptyString => Some acc
  | String c t =>
      match digitValue c with
      | Some d => digitsValue (10 * acc + d) t
      | None => None
      end
  end.

Definition isLeapYear (y : Z) : bool :=
  ((y mod 4 =? 0) && negb (y mod 100 =? 0)) || (y mod 400 =? 0).

Definition daysInMonth (y m : Z) : Z :=
  if m =? 2 then (if isLeapYear y then 29 else 28)
  else if (m =? 4) || (m =? 6) || (m =? 9) || (m =? 11) then 30
  else 31.

Definition isDash (o : option ascii) : bool :=
  match o with
  | Some c => Nat.eqb (nat_of_ascii c) 45
  | None => false
  end.

Definition isoCalendarDate (s : string) : bool :=
  Nat.eqb (String.length s) 10
  && isDash (String.get 4 s) && isDash (String.get 7 s)
  && match digitsValue 0 (substring 0 4 s),
           digitsValue 0 (substring 5 2 s),
           digitsValue 0 (substring 8 2 s) with
     | Some y, Some m, Some d =>
         (1 <=? m) && (m <=? 12) && (1 <=? d) && (d <=? daysInMonth y m)
     | _, _, _ => false
     end.

(** ** FlightService (services/flightService.ts) *)

Definition RECENT_SEARCHES_KEY : string := "@gflights_recent_searches".
Definition POPULAR_ROUTES_KEY : string := "@gflights_popular_routes".

Definition mockPopularRoutes : list PopularRoute :=
  [ {| route_origin := "JFK"; route_destination := "LAX";
       originName := "New York (JFK)"; destinationName := "Los Angeles (LAX)";
       averagePrice := Some "320"; popularity := 95 |};
    {| route_origin := "LAX"; route_destination := "SFO";
       originName := "Los Angeles (LAX)"; destinationName := "San Francisco (SFO)";
       averagePrice := Some "180"; popularity := 88 |};
    {| route_origin := "ORD"; route_destination := "LAX";
       originName := "Chicago (ORD)"; destinationName := "Los Angeles (LAX)";
       averagePrice := Some "290"; popularity := 82 |};
    {| route_origin := "JFK"; route_destination := "LHR";
       originName := "New York (JFK)"; destinationName := "London (LHR)";
       averagePrice := Some "650"; popularity := 78 |};
    {| route_origin := "LAX"; route_destination := "NRT";
       originName := "Los Angeles (LAX)"; destinationName := "Tokyo (NRT)";
       averagePrice := Some "890"; popularity := 75 |} ].

(** The value of [this.mockPopularRoutes]. *)
Definition mockPopularRoutes_json : json :=
  JArr (map PopularRoute_json mockPopularRoutes).

(** The messages of the errors [searchFlights] throws. *)
Definition invalidDepartureDate : string := "Invalid departure date format".
Definition codesRequired : string :=
  "Origin and destination airport codes are required".
Definition entityIdsRequired : string :=
  "Origin and destination entity IDs are required. Please select airports from the search results.".
Definition authenticationRequired : string :=
  "Authentication required. Please login again.".
Definition searchFailedPrefix : string := "Flight search failed: ".

(** [convertCabinClass]: the [switch] on [travelClass?.toUpperCase()], for the
    [toUpperCase] of the engine. *)
Definition convertCabinClass (toUpperCase : string -> string)
    (travelClass : option string) : string :=
  match travelClass with
  | None => "economy"
  | Some tc =>
      let upper := toUpperCase tc in
      if String.eqb upper "ECONOMY" then "economy"
      else if String.eqb upper "PREMIUM_ECONOMY" then "premium_economy"
      else if String.eqb upper "BUSINESS" then "business"
      else if String.eqb upper "FIRST" then "first"
      else "economy"
  end.

(** [n?.toString() || d] for an optional number. *)
Definition countOr (n : option Z) (d : string) : string :=
  match n with
  | Some k => Js.orElse (Js.numToString k) d
  | None => d
  end.

(** [s || d] for an optional string. *)
Definition stringOr (s : option string) (d : string) : string :=
  match s with
  | Some v => Js.orElse v d
  | None => d
  end.

(** [n || 0] for an optional number. *)
Definition numberOrZero (n : option Z) : Z :=
  match n with
  | Some k => if k =? 0 then 0 else k
  | None => 0
  end.

(** [o || d] for the result of a property read. *)
Definition valueOr (o : option json) (d : json) : json :=
  match o with
  | Some v => if Js.truthy v then v else d
  | None => d
  end.

(** [v?.k]. *)
Definition optProp (k : string) (v : json) : option json :=
  match v with
  | JNull => None
  | _ => Js.prop k v
  end.

(** The record [saveRecentSearch] builds from the request and the clock. *)
Definition recentSearchOf (clock : Clock) (searchRequest : FlightSearchRequest)
  : RecentSearch :=
  {| id := Js.numToString (nowMillis clock);
     origin := originLocationCode searchRequest;
     destination := destinationLocationCode searchRequest;
     recent_departureDate := departureDate searchRequest;
     recent_returnDate := returnDate searchRequest;
     passengers := adults searchRequest
                   + numberOrZero (children searchRequest)
                   + numberOrZero (infants searchRequest);
     searchedAt := nowISOString clock |}.

(** [saveRecentSearch].  Every exception of the body ends in its [catch],
    which only logs: a rejected [getItem], the [SyntaxError] of [JSON.parse],
    the [TypeError] of [unshift] on a value that is not an array, a rejected
    [setItem]. *)
Definition saveRecentSearch (io : Faults) (clock : Clock) (w : World)
    (searchRequest : FlightSearchRequest) : World :=
  let recentSearch := RecentSearch_json (recentSearchOf clock searchRequest) in
  match AsyncStorage.getItem io RECENT_SEARCHES_KEY w with
  | (w1, None) => w1
  | (w1, Some stored) =>
      let parsed :=
        match stored with
        | Some text => if textTruthy text then JSON_parse text else Some (JArr [])
        | None => Some (JArr [])
        end in
      match parsed with
      | Some (JArr recentSearches) =>
          let limitedSearches := take 10 (recentSearch :: recentSearches) in
          fst (AsyncStorage.setItem io RECENT_SEARCHES_KEY
                 (JSON_stringify (JArr limitedSearches)) w1)
      | Some _ => w1
      | None => w1
      end
  end.

(** [getRecentSearches]. *)
Definition getRecentSearches (io : Faults) (w : World) : World * json :=
  match AsyncStorage.getItem io RECENT_SEARCHES_KEY w with
  | (w1, None) => (w1, JArr [])
  | (w1, Some (Some text)) =>
      if textTruthy text then
        match JSON_parse text with
        | Some v => (w1, v)
        | None => (w1, JArr [])
        end
      else (w1, JArr [])
  | (w1, Some None) => (w1, JArr [])
  end.

(** [clearRecentSearches]. *)
Definition clearRecentSearches (io : Faults) (w : World) : World :=
  fst (AsyncStorage.removeItem io RECENT_SEARCHES_KEY w).

(** [getPopularRoutes]. *)
Definition getPopularRoutes (io : Faults) (w : World) : World * json :=
  match AsyncStorage.getItem io POPULAR_ROUTES_KEY w with
  | (w1, None) => (w1, mockPopularRoutes_json)
  | (w1, Some stored) =>
      let seed :=
        (fst (AsyncStorage.setItem io POPULAR_ROUTES_KEY
                (JSON_stringify mockPopularRoutes_json) w1),
         mockPopularRoutes_json) in
      match stored with
      | Some text =>
          if textTruthy text then
            match JSON_parse text with
            | Some v => (w1, v)
            | None => (w1, mockPopularRoutes_json)
            end
          else seed
      | None => seed
      end
  end.

(** The list [saveRecentSearch] goes on from: empty when nothing or the empty
    text is stored, the stored array when there is one, and none when the
    stored text does not parse or holds something else than an array. *)
Definition currentRecentSearches (w : World) : option (list json) :=
  match storage w !! RECENT_SEARCHES_KEY with
  | Some text =>
      if textTruthy text then
        match JSON_parse text with
        | Some (JArr items) => Some items
        | _ => None
        end
      else Some []
  | None => Some []
  end.

Definition isReturned {A : Type} (o : Outcome A) : bool :=
  match o with
  | Returned _ => true
  | Thrown _ => false
  end.

Section Service.

(** [dateValid s] is [!isNaN(new Date(s).getTime())]. *)
Variable dateValid : string -> bool.

(** [toUpperCase s] is [s.toUpperCase()]. *)
Variable toUpperCase : string -> string.

(** The message of the [TypeError] the engine throws when a property of
    [null] is read. *)
Variable typeErrorMessage : string.

(** The first part of the [try] block of [searchFlights]: the checks and the
    making of [backendRequest].  [Thrown] is the [Error] a check throws. *)
Definition buildBackendRequest (searchRequest : FlightSearchRequest)
  : Outcome BackendRequest :=
  if negb (dateValid (departureDate searchRequest)) then
    Thrown invalidDepartureDate
  else if Js.emptyb (originLocationCode searchRequest)
          || Js.emptyb (destinationLocationCode searchRequest) then
    Thrown codesRequired
  else if negb (Js.truthyStr (originEntityId searchRequest))
          || negb (Js.truthyStr (destinationEntityId searchRequest)) then
    Thrown entityIdsRequired
  else
    let includeReturnDate :=
      match returnDate searchRequest with
      | Some r =>
          negb (Js.emptyb r) && negb (String.eqb (Js.trim r) "") && dateValid r
      | None => false
      end in
    Returned
      {| originSkyId := originLocationCode searchRequest;
         destinationSkyId := destinationLocationCode searchRequest;
         backend_originEntityId := originEntityId searchRequest;
         backend_destinationEntityId := destinationEntityId searchRequest;
         backend_departureDate := departureDate searchRequest;
         cabinClass := convertCabinClass toUpperCase (travelClass searchRequest);
         backend_adults := Js.orElse (Js.numToString (adults searchRequest)) "1";
         backend_children := countOr (children searchRequest) "0";
         backend_infants := countOr (infants searchRequest) "0";
         sortBy := "best";
         currency := stringOr (currencyCode searchRequest) "USD";
         market := "en-US";
         countryCode := "US";
         backend_returnDate :=
           if includeReturnDate then returnDate searchRequest else None |}.

(** The last part of the [try] block: the response made into a
    [FlightSearchResponse].  Reading [response.data.data] throws a
    [TypeError] when the body is [null]. *)
Definition shapeResponse (response : HttpResponse)
  : Caught + FlightSearchResponse :=
  match resp_data response with
  | JNull =>
      inl {| caught_message := typeErrorMessage; caught_response := None |}
  | body =>
      let responseData := valueOr (Js.prop "data" body) (JArr []) in
      inr {| data := responseData;
             meta_count := valueOr (Js.lengthOf responseData) (JNum 0);
             meta_links_self := "/flights/search";
             dictionaries := valueOr (Js.prop "dictionaries" body) (JObj []) |}
  end.

(** [error.response?.data?.message]. *)
Definition upstreamMessage (error : Caught) : option json :=
  match caught_response error with
  | Some response => optProp "message" (resp_data response)
  | None => None
  end.

(** The [catch] block of [searchFlights]: the message of the [Error] it
    throws. *)
Definition rethrow (error : Caught) : string :=
  let is401 :=
    match caught_response error with
    | Some response => resp_status response =? 401
    | None => false
    end in
  if is401 then authenticationRequired
  else
    let errorMessage :=
      match upstreamMessage error with
      | Some m => if Js.truthy m then Js.toString m else caught_message error
      | None => caught_message error
      end in
    searchFailedPrefix +:+ errorMessage.

(** [searchFlights].  [post] is the upstream as [api.post] reaches it. *)
Definition searchFlights (post : string -> BackendRequest -> PostResult)
    (io : Faults) (clock : Clock) (w : World)
    (searchRequest : FlightSearchRequest)
  : World * Outcome FlightSearchResponse :=
  match buildBackendRequest searchRequest with
  | Thrown message =>
      (w, Thrown (rethrow {| caught_message := message;
                             caught_response := None |}))
  | Returned backendRequest =>
      let w1 := logEffect (Post "/flights/search" backendRequest) w in
      match post "/flights/search" backendRequest with
      | Rejected message response =>
          (w1, Thrown (rethrow {| caught_message := message;
                                  caught_response := response |}))
      | Resolved response =>
          let w2 := saveRecentSearch io clock w1 searchRequest in
          match shapeResponse response with
          | inl error => (w2, Thrown (rethrow error))
          | inr result => (w2, Returned result)
          end
      end
  end.

(** ** FlightContext (context/FlightContext.tsx) *)

Record FlightState : Type := {
  flightOffers : json;
  popularRoutes : json;
  recentSearches : json;
  isLoading : bool;
  searchError : option string
}.

(** The [searchFlights] action of the provider.  It never throws: an error
    of the service ends in [searchError].  [ioSave] and [ioRead] are the
    storage faults met by the service call and by the reload of the recent
    searches. *)
Definition FlightContext_searchFlights
    (post : string -> BackendRequest -> PostResult)
    (ioSave ioRead : Faults) (clock : Clock) (w : World) (s : FlightState)
    (searchRequest : FlightSearchRequest) : World * FlightState :=
  match searchFlights post ioSave clock w searchRequest with
  | (w1, Returned response) =>
      let (w2, searches) := getRecentSearches ioRead w1 in
      (w2, {| flightOffers := data response;
              popularRoutes := popularRoutes s;
              recentSearches := searches;
              isLoading := false;
              searchError := None |})
  | (w1, Thrown message) =>
      (w1, {| flightOffers := JArr [];
              popularRoutes := popularRoutes s;
              recentSearches := recentSearches s;
              isLoading := false;
              searchError := Some (Js.orElse message "Failed to search flights") |})
  end.

(** ** FlightSearchScreen (screens/FlightSearchScreen.tsx) *)

(** What the user sees at the end of [handleSearch]. *)
Inductive Shown : Type :=
  | Alert (title message : string)
  | FlightResults (searchRequest : FlightSearchRequest).

(** [handleSearch], for the request held in the state of the screen. *)
Definition handleSearch (post : string -> BackendRequest -> PostResult)
    (ioSave ioRead : Faults) (clock : Clock) (w : World) (s : FlightState)
    (searchRequest : FlightSearchRequest) : World * FlightState * Shown :=
  if Js.emptyb (originLocationCode searchRequest)
     || Js.emptyb (destinationLocationCode searchRequest)
     || Js.emptyb (departureDate searchRequest) then
    (w, s, Alert "Missing Information" "Please fill in all required fields")
  else if String.eqb (originLocationCode searchRequest)
                     (destinationLocationCode searchRequest) then
    (w, s, Alert "Invalid Route" "Origin and destination cannot be the same")
  else
    (FlightContext_searchFlights post ioSave ioRead clock w s searchRequest,
     FlightResults searchRequest).

(** A run of searches, one after the other, each with its own reading of the
    clock: the world at the end and the outcomes in order. *)
Fixpoint searchAll (post : string -> BackendRequest -> PostResult)
    (io : Faults) (w : World) (searches : list (Clock * FlightSearchRequest))
  : World * list (Outcome FlightSearchResponse) :=
  match searches with
  | [] => (w, [])
  | (clock, searchRequest) :: rest =>
      let (w1, outcome) := searchFlights post io clock w searchRequest in
      let (w2, outcomes) := searchAll post io w1 rest in
      (w2, outcome :: outcomes)
  end.

End Service.

(** The record of a search as it is stored. *)
Definition newRecentSearch (clock : Clock) (searchRequest : FlightSearchRequest)
  : json :=
  RecentSearch_json (recentSearchOf clock searchRequest).

(** The records of a run, in the order of the searches. *)
Definition recordsOf (searches : list (Clock * FlightSearchRequest)) : list json :=
  map (fun cs => newRecentSearch (fst cs) (snd cs)) searches.

(** ** Sample requests, upstreams and stores *)

Definition emptyWorld : World := {| storage := ∅; effects := [] |}.

Definition sampleClock : Clock :=
  {| nowMillis := 1700000000000; nowISOString := "2023-11-14T22:13:20.000Z" |}.

(** A round trip in business class whose return date does not parse. *)
Definition sampleRequest : FlightSearchRequest :=
  {| originLocationCode := "JFK";
     destinationLocationCode := "LAX";
     originEntityId := Some "95565058";
     destinationEntityId := Some "27536211";
     departureDate := "2025-03-15";
     returnDate := Some "next week";
     adults := 2;
     children := Some 1;
     infants := None;
     travelClass := Some "BUSINESS";
     currencyCode := None |}.

Definition sampleBackendRequest : BackendRequest :=
  {| originSkyId := "JFK";
     destinationSkyId := "LAX";
     backend_originEntityId := Some "95565058";
     backend_destinationEntityId := Some "27536211";
     backend_departureDate := "2025-03-15";
     cabinClass := "business";
     backend_adults := "2";
     backend_children := "1";
     backend_infants := "0";
     sortBy := "best";
     currency := "USD";
     market := "en-US";
     countryCode := "US";
     backend_returnDate := None |}.

(** The same request without the destination entity identifier. *)
Definition requestWithoutEntityId : FlightSearchRequest :=
  {| originLocationCode := "JFK";
     destinationLocationCode := "LAX";
     originEntityId := Some "95565058";
     destinationEntityId := None;
     departureDate := "2025-03-15";
     returnDate := None;
     adults := 1;
     children := None;
     infants := None;
     travelClass := Some "ECONOMY";
     currencyCode := Some "USD" |}.

(** No destination entity identifier and a departure date that does not
    parse. *)
Definition requestWithBadDate : FlightSearchRequest :=
  {| originLocationCode := "JFK";
     destinationLocationCode := "LAX";
     originEntityId := Some "95565058";
     destinationEntityId := None;
     departureDate := "not-a-date";
     returnDate := None;
     adults := 1;
     children := None;
     infants := None;
     travelClass := Some "ECONOMY";
     currencyCode := Some "USD" |}.

(** From JFK to JFK, everything else in order. *)
Definition requestSameRoute : FlightSearchRequest :=
  {| originLocationCode := "JFK";
     destinationLocationCode := "JFK";
     originEntityId := Some "95565058";
     destinationEntityId := Some "95565058";
     departureDate := "2025-03-15";
     returnDate := None;
     adults := 1;
     children := None;
     infants := None;
     travelClass := Some "ECONOMY";
     currencyCode := Some "USD" |}.

(** An upstream that answers with an envelope without [data]. *)
Definition upstreamWithoutData (url : string) (body : BackendRequest) : PostResult :=
  Resolved {| resp_status := 200; resp_data := JObj [("success", JBool true)] |}.

(** An upstream that answers 500 with a message of its own. *)
Definition upstreamBroken (url : string) (body : BackendRequest) : PostResult :=
  Rejected "Request failed with status code 500"
    (Some {| resp_status := 500;
             resp_data := JObj [("success", JBool false);
                                ("message", JStr "Provider unavailable")] |}).

(** A storage whose reads are rejected. *)
Definition unreadable : Faults :=
  {| getItemFails := true; setItemFails := false; removeItemFails := false |}.

(** A store whose recent searches are corrupt. *)
Definition corruptWorld : World :=
  {| storage := {[ RECENT_SEARCHES_KEY := Malformed "[{" ]}; effects := [] |}.

(** Eleven searches, made at the times 1 to 11. *)
Definition elevenSearches : list (Clock * FlightSearchRequest) :=
  map (fun t => ({| nowMillis := t; nowISOString := "2025-01-01T00:00:00.000Z" |},
                 sampleRequest))
      [1; 2; 3; 4; 5; 6; 7; 8; 9; 10; 11].

(** * More of the service and of its callers *)

(** ** FlightService: searchAirports *)

(** A GET that [api.get] issues: the path and the query parameters. *)
Inductive Request : Type :=
  | GetRequest (url : string) (params : list (string * string)).

(** [AirportSearchResponse], with [meta] flattened. *)
Record AirportSearchResponse : Type := {
  airports_data : json;
  airports_count : json;
  airports_links_self : string
}.

Definition airportSearchFailedPrefix : string := "Airport search failed: ".

Section AirportSearch.

Variable typeErrorMessage : string.

(** The [try] block of [searchAirports] once the GET has resolved.  Reading
    [response.data.data] throws a [TypeError] when the body is [null]. *)
Definition shapeAirports (response : HttpResponse)
  : Caught + AirportSearchResponse :=
  match resp_data response with
  | JNull =>
      inl {| caught_message := typeErrorMessage; caught_response := None |}
  | body =>
      inr {| airports_data := valueOr (Js.prop "data" body) (JArr []);
             airports_count :=
               valueOr (match Js.prop "data" body with
                        | Some d => Js.lengthOf d
                        | None => None
                        end) (JNum 0);
             airports_links_self := "/flights/search-airports" |}
  end.

(** The [catch] block of [searchAirports]. *)
Definition rethrowAirports (error : Caught) : string :=
  let is401 :=
    match caught_response error with
    | Some response => resp_status response =? 401
    | None => false
    end in
  if is401 then authenticationRequired
  else
    airportSearchFailedPrefix
    +:+ match upstreamMessage error with
        | Some m => if Js.truthy m then Js.toString m else caught_message error
        | None => caught_message error
        end.

(** [searchAirports]: the GET it issues and its outcome. *)
Definition searchAirports
    (get : string -> list (string * string) -> PostResult) (query : string)
  : Request * Outcome AirportSearchResponse :=
  let params := [("query", query); ("locale", "en-US")] in
  (GetRequest "/flights/search-airports" params,
   match get "/flights/search-airports" params with
   | Rejected message response =>
       Thrown (rethrowAirports {| caught_message := message;
                                  caught_response := response |})
   | Resolved response =>
       match shapeAirports response with
       | inl error => Thrown (rethrowAirports error)
       | inr result => Returned result
       end
   end).

End AirportSearch.

(** ** FlightContext: the other actions *)

(** [getRecentSearches] of the provider. *)
Definition FlightContext_getRecentSearches (io : Faults) (w : World)
    (s : FlightState) : World * FlightState :=
  let (w1, searches) := getRecentSearches io w in
  (w1, {| flightOffers := flightOffers s;
          popularRoutes := popularRoutes s;
          recentSearches := searches;
          isLoading := isLoading s;
          searchError := searchError s |}).

(** [clearRecentSearches] of the provider: the service swallows a failed
    removal, so the list of the state is emptied in every case. *)
Definition FlightContext_clearRecentSearches (io : Faults) (w : World)
    (s : FlightState) : World * FlightState :=
  (clearRecentSearches io w,
   {| flightOffers := flightOffers s;
      popularRoutes := popularRoutes s;
      recentSearches := JArr [];
      isLoading := isLoading s;
      searchError := searchError s |}).

(** ** FlightSearchScreen: the state of the screen and its handlers *)

(** The fields of [Airport] that identify an airport.  The nested blocks of
    the interface ([self], [geoCode], [address], [analytics]) are not read by
    the handlers below and are left out. *)
Record Airport : Type := {
  airport_id : string;
  airport_name : string;
  detailedName : string;
  skyId : option string;
  entityId : option string;
  iataCode : string
}.

Inductive AirportType : Type := OriginAirport | DestinationAirport.
Inductive DateType : Type := DepartureDate | ReturnDate.

(** The state hooks of the screen. *)
Record SearchScreen : Type := {
  searchRequest : FlightSearchRequest;
  isRoundTrip : bool;
  showAirportModal : bool;
  selectedAirportType : AirportType;
  airportSearchQuery : string;
  airportSearchResults : json;
  isSearchingAirports : bool;
  selectedOrigin : option Airport;
  selectedDestination : option Airport;
  showCalendarModal : bool;
  selectedDateType : DateType
}.

(** The request with which the screen starts. *)
Definition initialSearchRequest : FlightSearchRequest :=
  {| originLocationCode := "";
     destinationLocationCode := "";
     originEntityId := None;
     destinationEntityId := None;
     departureDate := "";
     returnDate := Some "";
     adults := 1;
     children := Some 0;
     infants := Some 0;
     travelClass := Some "ECONOMY";
     currencyCode := Some "USD" |}.

Definition withSearchRequest (r : FlightSearchRequest) (s : SearchScreen)
  : SearchScreen :=
  {| searchRequest := r;
     isRoundTrip := isRoundTrip s;
     showAirportModal := showAirportModal s;
     selectedAirportType := selectedAirportType s;
     airportSearchQuery := airportSearchQuery s;
     airportSearchResults := airportSearchResults s;
     isSearchingAirports := isSearchingAirports s;
     selectedOrigin := selectedOrigin s;
     selectedDestination := selectedDestination s;
     showCalendarModal := showCalendarModal s;
     selectedDateType := selectedDateType s |}.

(** The update of [swapAirports]: the two codes change places, the other
    fields of the request are spread as they are. *)
Definition swapCodes (prev : FlightSearchRequest) : FlightSearchRequest :=
  {| originLocationCode := destinationLocationCode prev;
     destinationLocationCode := originLocationCode prev;
     originEntityId := originEntityId prev;
     destinationEntityId := destinationEntityId prev;
     departureDate := departureDate prev;
     returnDate := returnDate prev;
     adults := adults prev;
     children := children prev;
     infants := infants prev;
     travelClass := travelClass prev;
     currencyCode := currencyCode prev |}.

(** [swapAirports]. *)
Definition swapAirports (s : SearchScreen) : SearchScreen :=
  withSearchRequest (swapCodes (searchRequest s)) s.

(** The request after an airport has been chosen as origin. *)
Definition withOrigin (airport : Airport) (prev : FlightSearchRequest)
  : FlightSearchRequest :=
  {| originLocationCode := stringOr (skyId airport) (iataCode airport);
     destinationLocationCode := destinationLocationCode prev;
     originEntityId := Some (stringOr (entityId airport) (airport_id airport));
     destinationEntityId := destinationEntityId prev;
     departureDate := departureDate prev;
     returnDate := returnDate prev;
     adults := adults prev;
     children := children prev;
     infants := infants prev;
     travelClass := travelClass prev;
     currencyCode := currencyCode prev |}.

(** The request after an airport has been chosen as destination. *)
Definition withDestination (airport : Airport) (prev : FlightSearchRequest)
  : FlightSearchRequest :=
  {| originLocationCode := originLocationCode prev;
     destinationLocationCode := stringOr (skyId airport) (iataCode airport);
     originEntityId := originEntityId prev;
     destinationEntityId := Some (stringOr (entityId airport) (airport_id airport));
     departureDate := departureDate prev;
     returnDate := returnDate prev;
     adults := adults prev;
     children := children prev;
     infants := infants prev;
     travelClass := travelClass prev;
     currencyCode := currencyCode prev |}.

(** [handleAirportSelect]. *)
Definition handleAirportSelect (airport : Airport) (s : SearchScreen)
  : SearchScreen :=
  match selectedAirportType s with
  | OriginAirport =>
      {| searchRequest := withOrigin airport (searchRequest s);
         isRoundTrip := isRoundTrip s;
         showAirportModal := false;
         selectedAirportType := selectedAirportType s;
         airportSearchQuery := "";
         airportSearchResults := JArr [];
         isSearchingAirports := isSearchingAirports s;
         selectedOrigin := Some airport;
         selectedDestination := selectedDestination s;
         showCalendarModal := showCalendarModal s;
         selectedDateType := selectedDateType s |}
  | DestinationAirport =>
      {| searchRequest := withDestination airport (searchRequest s);
         isRoundTrip := isRoundTrip s;
         showAirportModal := false;
         selectedAirportType := selectedAirportType s;
         airportSearchQuery := "";
         airportSearchResults := JArr [];
         isSearchingAirports := isSearchingAirports s;
         selectedOrigin := selectedOrigin s;
         selectedDestination := Some airport;
         showCalendarModal := showCalendarModal s;
         selectedDateType := selectedDateType s |}
  end.

(** Opening the airport modal for one of the two fields, as the two buttons
    of the screen do. *)
Definition openAirportModal (type : AirportType) (s : SearchScreen)
  : SearchScreen :=
  {| searchRequest := searchRequest s;
     isRoundTrip := isRoundTrip s;
     showAirportModal := true;
     selectedAirportType := type;
     airportSearchQuery := airportSearchQuery s;
     airportSearchResults := airportSearchResults s;
     isSearchingAirports := isSearchingAirports s;
     selectedOrigin := selectedOrigin s;
     selectedDestination := selectedDestination s;
     showCalendarModal := showCalendarModal s;
     selectedDateType := selectedDateType s |}.

Definition withAirportSearch (results : json) (searching : bool)
    (s : SearchScreen) : SearchScreen :=
  {| searchRequest := searchRequest s;
     isRoundTrip := isRoundTrip s;
     showAirportModal := showAirportModal s;
     selectedAirportType := selectedAirportType s;
     airportSearchQuery := airportSearchQuery s;
     airportSearchResults := results;
     isSearchingAirports := searching;
     selectedOrigin := selectedOrigin s;
     selectedDestination := selectedDestination s;
     showCalendarModal := showCalendarModal s;
     selectedDateType := selectedDateType s |}.

Section ScreenAirportSearch.

Variable typeErrorMessage : string.

(** [codeUnits s] is [s.length], the number of code units of [s]. *)
Variable codeUnits : string -> nat.

(** [searchAirports] of the screen: the GETs issued, the state at the end and
    the alert, if one is shown. *)
Definition Screen_searchAirports
    (get : string -> list (string * string) -> PostResult) (query : string)
    (s : SearchScreen) : list Request * SearchScreen * option Shown :=
  if Nat.ltb (codeUnits query) 2 then
    ([], withAirportSearch (JArr []) (isSearchingAirports s) s, None)
  else
    match searchAirports typeErrorMessage get query with
    | (request, Returned response) =>
        ([request], withAirportSearch (airports_data response) false s, None)
    | (request, Thrown message) =>
        ([request], withAirportSearch (airportSearchResults s) false s,
         Some (Alert "Search Error" (Js.orElse message "Failed to search airports")))
    end.

End ScreenAirportSearch.

(** ** HomeScreen: formatDate *)

Section HomeScreen.

(** [dateTime s] is [new Date(s).getTime()], in milliseconds; [None] is
    [NaN]. *)
Variable dateTime : string -> option Z.

(** [formatDate], at the time [now] ([new Date().getTime()]). *)
Definition formatDate (now : Z) (dateString : string) : string :=
  match dateTime dateString with
  | None => "NaN day ago"
  | Some date =>
      let diffInHours := (now - date) / (1000 * 60 * 60) in
      if diffInHours <? 1 then "Just now"
      else if diffInHours <? 24 then
        Js.numToString diffInHours +:+ " hour"
        +:+ (if 1 <? diffInHours then "s" else "") +:+ " ago"
      else
        let diffInDays := diffInHours / 24 in
        Js.numToString diffInDays +:+ " day"
        +:+ (if 1 <? diffInDays then "s" else "") +:+ " ago"
  end.

End HomeScreen.

(** ** FlightResultsScreen: formatDuration *)

Definition isDigit (c : ascii) : bool :=
  let n := nat_of_ascii c in (Nat.leb 48 n && Nat.leb n 57)%bool.

(** The longest run of digits at the start of a string, and what follows. *)
Fixpoint takeDigits (s : string) : string * string :=
  match s with
  | EmptyString => (EmptyString, EmptyString)
  | String c t =>
      if isDigit c then
        let (digits, rest) := takeDigits t in (String c digits, rest)
      else (EmptyString, s)
  end.

(** [(?:(\d+)X)?] at the start of a string, for a letter [X]: the group and
    what follows the match.  The group is there when digits come first, as
    many as there are, and [X] follows them. *)
Definition optionalGroup (letter : ascii) (s : string) : option string * string :=
  match takeDigits s with
  | (String d ds, String c rest) =>
      if Ascii.eqb c letter then (Some (String d ds), rest) else (None, s)
  | _ => (None, s)
  end.

(** What follows the first ["PT"] of a string. *)
Fixpoint afterPT (s : string) : option string :=
  match s with
  | EmptyString => None
  | String c t =>
      match t with
      | String d rest =>
          if (Ascii.eqb c "P" && Ascii.eqb d "T")%bool then Some rest
          else afterPT t
      | EmptyString => None
      end
  end.

(** [formatDuration]: the match of [/PT(?:(\d+)H)?(?:(\d+)M)?/] is at the
    first ["PT"], since the two groups may be empty. *)
Definition formatDuration (duration : string) : string :=
  match afterPT duration with
  | None => duration
  | Some rest =>
      let (hoursGroup, rest1) := optionalGroup "H" rest in
      let (minutesGroup, _) := optionalGroup "M" rest1 in
      let hours := match hoursGroup with
                   | Some h => h +:+ "h"
                   | None => ""
                   end in
      let minutes := match minutesGroup with
                     | Some m => " " +:+ m +:+ "m"
                     | None => ""
                     end in
      Js.trim (hours +:+ minutes)
  end.

(** A string of digits only. *)
Fixpoint allDigits (s : string) : bool :=
  match s with
  | EmptyString => true
  | String c t => (isDigit c && allDigits t)%bool
  end.

(** The ending of a count: the [s] of the plural. *)
Definition pluralEnding (n : Z) : string := if 1 <? n then "s" else "".

(** ** More sample inputs *)

Definition kennedy : Airport :=
  {| airport_id := "95565058";
     airport_name := "New York John F. Kennedy";
     detailedName := "New York John F. Kennedy (JFK)";
     skyId := Some "JFK";
     entityId := Some "95565058";
     iataCode := "JFK" |}.

Definition heathrow : Airport :=
  {| airport_id := "95565050";
     airport_name := "London Heathrow";
     detailedName := "London Heathrow (LHR)";
     skyId := None;
     entityId := None;
     iataCode := "LHR" |}.

Definition initialScreen : SearchScreen :=
  {| searchRequest := initialSearchRequest;
     isRoundTrip := false;
     showAirportModal := false;
     selectedAirportType := OriginAirport;
     airportSearchQuery := "";
     airportSearchResults := JArr [];
     isSearchingAirports := false;
     selectedOrigin := None;
     selectedDestination := None;
     showCalendarModal := false;
     selectedDateType := DepartureDate |}.

Definition initialFlightState : FlightState :=
  {| flightOffers := JArr [];
     popularRoutes := JArr [];
     recentSearches := JArr [];
     isLoading := false;
     searchError := None |}.

(** A storage whose removals are rejected. *)
Definition undeletable : Faults :=
  {| getItemFails := false; setItemFails := false; removeItemFails := true |}.

(** A store with two recent searches and a value of its own under the key of
    the popular routes. *)
Definition usedWorld : World :=
  {| storage :=
       <[RECENT_SEARCHES_KEY := Serialized (JArr [JStr "second"; JStr "first"])]>
         {[ POPULAR_ROUTES_KEY := Serialized (JArr [JStr "route"]) ]};
     effects := [] |}.

(** Three searches, made at the times 1 to 3. *)
Definition threeSearches : list (Clock * FlightSearchRequest) :=
  map (fun t => ({| nowMillis := t; nowISOString := "2025-01-01T00:00:00.000Z" |},
                 sampleRequest))
      [1; 2; 3].

(** An upstream that answers with a [null] body. *)
Definition upstreamNull (url : string) (body : BackendRequest) : PostResult :=
  Resolved {| resp_status := 200; resp_data := JNull |}.

(** An airport search that finds two airports. *)
Definition airportsFound (url : string) (params : list (string * string))
  : PostResult :=
  Resolved {| resp_status := 200;
              resp_data := JObj [("success", JBool true);
                                 ("data", JArr [JStr "JFK"; JStr "LGA"])] |}.

(** A clock of timestamps: an ISO date of January 2025 at midnight UTC is
    worth its day, nothing else parses. *)
Definition sampleDateTime (s : string) : option Z :=
  if String.eqb s "2025-01-01T00:00:00.000Z" then Some 1735689600000
  else if String.eqb s "2025-01-02T00:00:00.000Z" then Some 1735776000000
  else None.

(** * Properties *)

Example asciiUpperCase_mixed : Js.asciiUpperCase "Premium_economy" = "PREMIUM_ECONOMY".
Proof. reflexivity. Qed.

Example trim_both : Js.trim "  2025-03-15 " = "2025-03-15".
Proof. reflexivity. Qed.

Example toString_array :
  Js.toString (JArr [JStr "a"; JNull; JNum 12; JArr [JBool true; JNum (-3)]])
  = "a,,12,true,-3".
Proof. vm_compute. reflexivity. Qed.

Example isoCalendarDate_samples :
  (isoCalendarDate "2025-03-15", isoCalendarDate "2024-02-29",
   isoCalendarDate "2025-02-29", isoCalendarDate "not-a-date",
   isoCalendarDate "", isoCalendarDate "2025-3-15")
  = (true, true, false, false, false, false).
Proof. vm_compute. reflexivity. Qed.

(** ** Strings *)

Lemma emptyb_true (s : string) : Js.emptyb s = true <-> s = "".
Proof. destruct s; simpl; split; congruence. Qed.

Lemma emptyb_false (s : string) : Js.emptyb s = false <-> s <> "".
Proof. destruct s; simpl; split; congruence. Qed.

Lemma truthyStr_true (o : option string) :
  Js.truthyStr o = true <-> exists s, o = Some s /\ s <> "".
Proof.
  destruct o as [s|]; simpl.
  - rewrite negb_true_iff, emptyb_false. split.
    + intros H. exists s. split; [reflexivity | exact H].
    + intros (s' & Heq & Hne). injection Heq as ->. exact Hne.
  - split; [discriminate | intros (s' & Heq & _); discriminate].
Qed.

Lemma trimEnd_keeps_head (c : ascii) (t : string) :
  Js.isSpace c = false -> Js.trimEnd (String c t) <> "".
Proof.
  intros Hc. simpl. destruct (Js.trimEnd t); [rewrite Hc |]; discriminate.
Qed.

Lemma trim_not_blank (c : ascii) (t : string) :
  Js.isSpace c = false -> Js.trim (String c t) <> "".
Proof.
  intros Hc. unfold Js.trim. simpl. rewrite Hc.
  apply trimEnd_keeps_head. exact Hc.
Qed.

Lemma digit_not_space (c : ascii) (d : Z) :
  digitValue c = Some d -> Js.isSpace c = false.
Proof.
  unfold digitValue, Js.isSpace.
  destruct (_ && _) eqn:Hd; [intros _ | discriminate].
  apply andb_true_iff in Hd as [Hlo Hhi].
  apply Z.leb_le in Hlo. apply Z.leb_le in Hhi.
  apply orb_false_iff. split.
  - apply andb_false_iff. right. apply Nat.leb_gt. lia.
  - apply Nat.eqb_neq. lia.
Qed.

(** The sample parser rejects every string that is empty after trimming. *)
Lemma isoCalendarDate_not_blank (s : string) :
  Js.trim s = "" -> isoCalendarDate s = false.
Proof.
  intros Hblank. destruct (isoCalendarDate s) eqn:Hiso; [exfalso | reflexivity].
  unfold isoCalendarDate in Hiso.
  destruct s as [|c t]; [discriminate |].
  apply andb_true_iff in Hiso as [_ Hnum].
  simpl substring in Hnum. simpl digitsValue in Hnum.
  destruct (digitValue c) as [d|] eqn:Hd; [| discriminate].
  exact (trim_not_blank c t (digit_not_space c d Hd) Hblank).
Qed.

(** The message of the authentication error is not one of the messages that
    start with the prefix of a failed search. *)
Lemma authenticationRequired_distinct (m : string) :
  authenticationRequired <> searchFailedPrefix +:+ m.
Proof. unfold authenticationRequired, searchFailedPrefix. simpl. discriminate. Qed.

Section Properties.

Variable dateValid : string -> bool.
Variable toUpperCase : string -> string.
Variable typeErrorMessage : string.

Local Abbreviation build := (buildBackendRequest dateValid toUpperCase).
Local Abbreviation search := (searchFlights dateValid toUpperCase typeErrorMessage).

(** ** The phases of [searchFlights] *)

(** An error of a check comes out of the [catch] with the prefix. *)
Lemma rethrow_plain (message : string) :
  rethrow {| caught_message := message; caught_response := None |}
  = searchFailedPrefix +:+ message.
Proof. reflexivity. Qed.

Lemma searchFlights_check_failed post io clock w searchRequest message :
  build searchRequest = Thrown message ->
  search post io clock w searchRequest
  = (w, Thrown (searchFailedPrefix +:+ message)).
Proof. intros Hb. unfold searchFlights. rewrite Hb. reflexivity. Qed.

Lemma searchFlights_post_rejected post io clock w searchRequest br message response :
  build searchRequest = Returned br ->
  post "/flights/search" br = Rejected message response ->
  search post io clock w searchRequest
  = (logEffect (Post "/flights/search" br) w,
     Thrown (rethrow {| caught_message := message;
                        caught_response := response |})).
Proof. intros Hb Hp. unfold searchFlights. rewrite Hb, Hp. reflexivity. Qed.

Lemma searchFlights_post_resolved post io clock w searchRequest br response :
  build searchRequest = Returned br ->
  post "/flights/search" br = Resolved response ->
  search post io clock w searchRequest
  = (saveRecentSearch io clock (logEffect (Post "/flights/search" br) w)
       searchRequest,
     match shapeResponse typeErrorMessage response with
     | inl error => Thrown (rethrow error)
     | inr result => Returned result
     end).
Proof.
  intros Hb Hp. unfold searchFlights. rewrite Hb, Hp.
  destruct (shapeResponse typeErrorMessage response); reflexivity.
Qed.

(** The request that [buildBackendRequest] makes is the body of the one POST
    of the search; what follows it are the storage calls of
    [saveRecentSearch]. *)
Lemma searchFlights_posts post io clock w searchRequest br :
  build searchRequest = Returned br ->
  exists later,
    effects (fst (search post io clock w searchRequest))
    = (later ++ Post "/flights/search" br :: effects w)%list
    /\ forall url body, ~ In (Post url body) later.
Proof.
  intros Hb. unfold searchFlights. rewrite Hb.
  destruct (post "/flights/search" br) as [response|message response].
  - assert (Hsave : exists later,
        effects (saveRecentSearch io clock
                   (logEffect (Post "/flights/search" br) w) searchRequest)
        = (later ++ Post "/flights/search" br :: effects w)%list
        /\ forall url body, ~ In (Post url body) later).
    { unfold saveRecentSearch, AsyncStorage.getItem, AsyncStorage.setItem.
      destruct (getItemFails io).
      - exists [GetItem RECENT_SEARCHES_KEY]. split; [reflexivity |].
        intros url body [Habs | []]. discriminate.
      - destruct (match storage (logEffect (Post "/flights/search" br) w)
                          !! RECENT_SEARCHES_KEY with
                  | Some text =>
                      if textTruthy text then JSON_parse text else Some (JArr [])
                  | None => Some (JArr [])
                  end) as [[| | | |items|]|];
          try (exists [GetItem RECENT_SEARCHES_KEY]; split; [reflexivity |];
               intros url body [Habs | []]; discriminate).
        destruct (setItemFails io);
          (eexists [SetItem RECENT_SEARCHES_KEY _; GetItem RECENT_SEARCHES_KEY];
           split; [reflexivity |];
           intros url body [Habs | [Habs | []]]; discriminate). }
    destruct Hsave as (later & Heff & Hnone).
    exists later. split; [| exact Hnone].
    destruct (shapeResponse typeErrorMessage response); exact Heff.
  - exists []. split; [reflexivity |]. intros url body [].
Qed.

(** What the checks of [buildBackendRequest] let through. *)
Lemma buildBackendRequest_Returned searchRequest br :
  build searchRequest = Returned br ->
  dateValid (departureDate searchRequest) = true
  /\ originLocationCode searchRequest <> ""
  /\ destinationLocationCode searchRequest <> ""
  /\ Js.truthyStr (originEntityId searchRequest) = true
  /\ Js.truthyStr (destinationEntityId searchRequest) = true.
Proof.
  unfold buildBackendRequest. intros Hb.
  destruct (dateValid (departureDate searchRequest)); [| discriminate].
  destruct (Js.emptyb (originLocationCode searchRequest)) eqn:Ho; [discriminate |].
  destruct (Js.emptyb (destinationLocationCode searchRequest)) eqn:Hd; [discriminate |].
  destruct (Js.truthyStr (originEntityId searchRequest)); [| discriminate].
  destruct (Js.truthyStr (destinationEntityId searchRequest)); [| discriminate].
  apply emptyb_false in Ho. apply emptyb_false in Hd. tauto.
Qed.

Lemma buildBackendRequest_passes searchRequest :
  dateValid (departureDate searchRequest) = true ->
  originLocationCode searchRequest <> "" ->
  destinationLocationCode searchRequest <> "" ->
  Js.truthyStr (originEntityId searchRequest) = true ->
  Js.truthyStr (destinationEntityId searchRequest) = true ->
  exists br, build searchRequest = Returned br.
Proof.
  intros Hdate Ho Hd Hoe Hde. unfold buildBackendRequest.
  apply emptyb_false in Ho. apply emptyb_false in Hd.
  rewrite Hdate, Ho, Hd, Hoe, Hde. simpl. eexists. reflexivity.
Qed.

(** The fields of the request that [buildBackendRequest] makes. *)
Lemma buildBackendRequest_fields searchRequest br :
  build searchRequest = Returned br ->
  originSkyId br = originLocationCode searchRequest
  /\ destinationSkyId br = destinationLocationCode searchRequest
  /\ backend_originEntityId br = originEntityId searchRequest
  /\ backend_destinationEntityId br = destinationEntityId searchRequest
  /\ cabinClass br = convertCabinClass toUpperCase (travelClass searchRequest)
  /\ backend_returnDate br
     = match returnDate searchRequest with
       | Some r =>
           if negb (Js.emptyb r) && negb (String.eqb (Js.trim r) "")
              && dateValid r
           then Some r else None
       | None => None
       end.
Proof.
  unfold buildBackendRequest. intros Hb.
  destruct (negb (dateValid (departureDate searchRequest))); [discriminate |].
  destruct (Js.emptyb (originLocationCode searchRequest)
            || Js.emptyb (destinationLocationCode searchRequest)); [discriminate |].
  destruct (negb (Js.truthyStr (originEntityId searchRequest))
            || negb (Js.truthyStr (destinationEntityId searchRequest)));
    [discriminate |].
  injection Hb as <-. simpl.
  repeat split.
  destruct (returnDate searchRequest) as [r|]; [| reflexivity].
  destruct (negb (Js.emptyb r) && negb (String.eqb (Js.trim r) "") && dateValid r);
    reflexivity.
Qed.

(** ** Cabin class *)




(** ** Return date *)

(** The return date is left out exactly when it is absent, empty, blank or
    rejected by the date parser.  No assumption on the parser. *)
Lemma returnDate_omitted searchRequest br :
  build searchRequest = Returned br ->
  backend_returnDate br = None
  <-> (returnDate searchRequest = None
       \/ exists r, returnDate searchRequest = Some r
                    /\ (Js.trim r = "" \/ dateValid r = false)).
Proof.
  intros Hb.
  destruct (buildBackendRequest_fields _ _ Hb) as (_ & _ & _ & _ & _ & Hret).
  rewrite Hret. clear Hret.
  destruct (returnDate searchRequest) as [r|]; [| tauto].
  destruct (Js.emptyb r) eqn:Hempty; simpl.
  - apply emptyb_true in Hempty. subst r. split; [| reflexivity].
    intros _. right. exists "". split; [reflexivity | left; reflexivity].
  - destruct (String.eqb_spec (Js.trim r) "") as [Hblank|Hblank]; simpl.
    + split; [| reflexivity].
      intros _. right. exists r. split; [reflexivity | left; exact Hblank].
    + destruct (dateValid r) eqn:Hvalid.
      * split; [discriminate |].
        intros [Hnone | (r' & Heq & [Hb' | Hv'])]; [discriminate | |];
          injection Heq as <-; congruence.
      * split; [| reflexivity].
        intros _. right. exists r. split; [reflexivity | right; exact Hvalid].
Qed.

(** C2.  With a date parser that rejects blank strings, as the engines do:
    for a search request with both entity identifiers and both codes present
    and a departure date that parses, [searchFlights] makes a provider
    request, whatever the return date is, and posts it; that request has no
    [returnDate] exactly when the return date of the search request is absent
    or does not parse, and otherwise carries the return date as given; and
    the search returns a result whenever the upstream answers with a body. *)
Theorem return_date_omitted_iff_absent_or_unparsable
    (parser_rejects_blank : forall s, Js.trim s = "" -> dateValid s = false)
    searchRequest :
  dateValid (departureDate searchRequest) = true ->
  originLocationCode searchRequest <> "" ->
  destinationLocationCode searchRequest <> "" ->
  Js.truthyStr (originEntityId searchRequest) = true ->
  Js.truthyStr (destinationEntityId searchRequest) = true ->
  exists br,
    build searchRequest = Returned br
    /\ (backend_returnDate br = None
        <-> (returnDate searchRequest = None
             \/ exists r, returnDate searchRequest = Some r
                          /\ dateValid r = false))
    /\ (forall r, backend_returnDate br = Some r ->
                  returnDate searchRequest = Some r)
    /\ (forall post io clock w,
          exists later,
            effects (fst (search post io clock w searchRequest))
            = (later ++ Post "/flights/search" br :: effects w)%list)
    /\ (forall post io clock w response,
          post "/flights/search" br = Resolved response ->
          resp_data response <> JNull ->
          exists result,
            snd (search post io clock w searchRequest) = Returned result).
Proof.
  intros Hdate Ho Hd Hoe Hde.
  destruct (buildBackendRequest_passes _ Hdate Ho Hd Hoe Hde) as [br Hb].
  exists br. split; [exact Hb |]. split; [| split; [| split]].
  - rewrite (returnDate_omitted _ _ Hb). split.
    + intros [Hnone | (r & Hr & [Hblank | Hinvalid])].
      * left. exact Hnone.
      * right. exists r. split; [exact Hr | apply parser_rejects_blank, Hblank].
      * right. exists r. split; [exact Hr | exact Hinvalid].
    + intros [Hnone | (r & Hr & Hinvalid)].
      * left. exact Hnone.
      * right. exists r. split; [exact Hr | right; exact Hinvalid].
  - intros r Hr.
    destruct (buildBackendRequest_fields _ _ Hb) as (_ & _ & _ & _ & _ & Hret).
    rewrite Hret in Hr.
    destruct (returnDate searchRequest) as [r'|]; [| discriminate].
    destruct (_ && _) in Hr; [exact Hr | discriminate].
  - intros post io clock w.
    destruct (searchFlights_posts post io clock w _ _ Hb) as (later & Heff & _).
    exists later. exact Heff.
  - intros post io clock w response Hp Hbody.
    rewrite (searchFlights_post_resolved _ _ _ _ _ _ _ Hb Hp). simpl.
    unfold shapeResponse.
    destruct (resp_data response); try (eexists; reflexivity).
    contradiction.
Qed.

(** ** Missing entity identifiers *)

(** C3, as the code has it.  A search request without the origin or the
    destination entity identifier (absent or empty) makes [searchFlights]
    fail without any effect, so without a network call.  The error is the one
    of the first check that fails, in the order departure date, airport codes,
    entity identifiers, and its message comes with the prefix that the [catch]
    puts before it: it is the message that asks for the entity identifiers
    when the departure date parses and both codes are present. *)
Theorem missing_entity_id_rejected post io clock w searchRequest :
  Js.truthyStr (originEntityId searchRequest) = false
  \/ Js.truthyStr (destinationEntityId searchRequest) = false ->
  exists message,
    search post io clock w searchRequest
    = (w, Thrown (searchFailedPrefix +:+ message))
    /\ (dateValid (departureDate searchRequest) = false ->
        message = invalidDepartureDate)
    /\ (dateValid (departureDate searchRequest) = true ->
        originLocationCode searchRequest = ""
        \/ destinationLocationCode searchRequest = "" ->
        message = codesRequired)
    /\ (dateValid (departureDate searchRequest) = true ->
        originLocationCode searchRequest <> "" ->
        destinationLocationCode searchRequest <> "" ->
        message = entityIdsRequired).
Proof.
  intros Hmissing.
  assert (Hids : negb (Js.truthyStr (originEntityId searchRequest))
                 || negb (Js.truthyStr (destinationEntityId searchRequest)) = true).
  { destruct Hmissing as [-> | ->]; [reflexivity | apply orb_true_r]. }
  destruct (dateValid (departureDate searchRequest)) eqn:Hdate.
  - destruct (Js.emptyb (originLocationCode searchRequest)
              || Js.emptyb (destinationLocationCode searchRequest)) eqn:Hcodes.
    + exists codesRequired. split; [| split; [| split]].
      * apply searchFlights_check_failed. unfold buildBackendRequest.
        rewrite Hdate, Hcodes. reflexivity.
      * discriminate.
      * reflexivity.
      * intros _ Ho Hd. apply emptyb_false in Ho. apply emptyb_false in Hd.
        rewrite Ho, Hd in Hcodes. discriminate.
    + exists entityIdsRequired. split; [| split; [| split]].
      * apply searchFlights_check_failed. unfold buildBackendRequest.
        rewrite Hdate, Hcodes, Hids. reflexivity.
      * discriminate.
      * intros _ [Ho | Hd]; apply emptyb_true in Ho || apply emptyb_true in Hd;
          apply orb_false_iff in Hcodes as [Hco Hcd]; congruence.
      * reflexivity.
  - exists invalidDepartureDate. split; [| split; [| split]].
    + apply searchFlights_check_failed. unfold buildBackendRequest.
      rewrite Hdate. reflexivity.
    + reflexivity.
    + discriminate.
    + discriminate.
Qed.

(** ** Origin and destination *)

Lemma handleSearch_same_route post ioSave ioRead clock w s searchRequest :
  originLocationCode searchRequest = destinationLocationCode searchRequest ->
  exists title message,
    handleSearch dateValid toUpperCase typeErrorMessage post ioSave ioRead clock w s
      searchRequest
    = (w, s, Alert title message).
Proof.
  intros Hsame. unfold handleSearch.
  destruct (_ || _); [eexists; eexists; reflexivity |].
  rewrite Hsame, String.eqb_refl. eexists; eexists; reflexivity.
Qed.

(** C9, as the code has it.  The comparison of origin and destination is made
    by [handleSearch] of the search screen, not by [searchFlights]: a request
    with equal codes that is submitted through [handleSearch] ends in an alert
    with no effect at all (the alert of an invalid route when the codes and
    the departure date are filled in), so whenever [handleSearch] issues a
    network call the two codes differ; [searchFlights] itself copies the two
    codes into the provider request without comparing them. *)
Theorem same_route_rejected_by_search_screen
    post ioSave ioRead clock w s searchRequest :
  let run := handleSearch dateValid toUpperCase typeErrorMessage post ioSave ioRead clock
               w s searchRequest in
  (originLocationCode searchRequest = destinationLocationCode searchRequest ->
   fst (fst run) = w
   /\ (originLocationCode searchRequest <> "" ->
       departureDate searchRequest <> "" ->
       snd run = Alert "Invalid Route" "Origin and destination cannot be the same"))
  /\ (forall new url body,
        effects (fst (fst run)) = (new ++ effects w)%list ->
        In (Post url body) new ->
        originLocationCode searchRequest <> destinationLocationCode searchRequest)
  /\ (forall br,
        build searchRequest = Returned br ->
        originSkyId br = originLocationCode searchRequest
        /\ destinationSkyId br = destinationLocationCode searchRequest).
Proof.
  cbv zeta. split; [| split].
  - intros Hsame. split.
    + destruct (handleSearch_same_route post ioSave ioRead clock w s _ Hsame)
        as (title & message & ->). reflexivity.
    + intros Ho Hdep. unfold handleSearch.
      rewrite <- Hsame. apply emptyb_false in Ho. apply emptyb_false in Hdep.
      rewrite Ho, Hdep, String.eqb_refl. reflexivity.
  - intros new url body Hnew Hin Hsame.
    destruct (handleSearch_same_route post ioSave ioRead clock w s _ Hsame)
      as (title & message & Hrun).
    rewrite Hrun in Hnew. simpl in Hnew.
    change (effects w) with (([] : list Effect) ++ effects w)%list in Hnew at 1.
    apply app_inv_tail in Hnew. subst new. destruct Hin.
  - intros br Hb.
    destruct (buildBackendRequest_fields _ _ Hb) as (Ho & Hd & _).
    split; assumption.
Qed.

(** ** Response shaping *)

Lemma valueOr_length (items : list json) :
  valueOr (Js.lengthOf (JArr items)) (JNum 0) = JNum (Z.of_nat (length items)).
Proof.
  simpl. destruct (Z.eqb_spec (Z.of_nat (length items)) 0) as [-> |]; reflexivity.
Qed.

(** C5.  When the upstream answers with an envelope (an object), the search
    returns a response such that: without a [data] field the offers are the
    empty array and the count is 0; an array in [data] is the offers; the
    count is the length of the offers whenever they are an array, whatever
    else the envelope says; an object in [dictionaries] is passed on as it
    is, and without that field the dictionaries are the empty object. *)
Theorem envelope_shaped post io clock w searchRequest br response fields :
  build searchRequest = Returned br ->
  post "/flights/search" br = Resolved response ->
  resp_data response = JObj fields ->
  exists result,
    snd (search post io clock w searchRequest) = Returned result
    /\ (Js.field "data" fields = None ->
        data result = JArr [] /\ meta_count result = JNum 0)
    /\ (forall offers, Js.field "data" fields = Some (JArr offers) ->
                       data result = JArr offers)
    /\ (forall offers, data result = JArr offers ->
                       meta_count result = JNum (Z.of_nat (length offers)))
    /\ (forall d, Js.field "dictionaries" fields = Some (JObj d) ->
                  dictionaries result = JObj d)
    /\ (Js.field "dictionaries" fields = None -> dictionaries result = JObj []).
Proof.
  intros Hb Hp Hbody.
  rewrite (searchFlights_post_resolved _ _ _ _ _ _ _ Hb Hp). simpl.
  unfold shapeResponse. rewrite Hbody. eexists. split; [reflexivity |].
  simpl. split; [| split; [| split; [| split]]].
  - intros ->. split; reflexivity.
  - intros offers ->. reflexivity.
  - intros offers ->. apply valueOr_length.
  - intros d ->. reflexivity.
  - intros ->. reflexivity.
Qed.

(** ** Upstream failures *)

(** C6.  When the POST fails, [searchFlights] throws: the authentication
    error when the upstream answered with status 401; otherwise an error whose
    message is the failed-search prefix followed by the message of the
    upstream body when there is one (a truthy [message] of the body of the
    response), and by the message of the transport error when there is none.
    The authentication message is none of the failed-search messages. *)
Theorem upstream_failure_surfaced
    post io clock w searchRequest br message response :
  build searchRequest = Returned br ->
  post "/flights/search" br = Rejected message response ->
  let error := {| caught_message := message; caught_response := response |} in
  exists thrown,
    snd (search post io clock w searchRequest) = Thrown thrown
    /\ (forall r, response = Some r -> resp_status r = 401 ->
                  thrown = authenticationRequired)
    /\ (response = None
        \/ (exists r, response = Some r /\ resp_status r <> 401) ->
        (forall m, upstreamMessage error = Some m -> Js.truthy m = true ->
                   thrown = searchFailedPrefix +:+ Js.toString m)
        /\ (Js.truthyOpt (upstreamMessage error) = false ->
            thrown = searchFailedPrefix +:+ message))
    /\ (forall m, authenticationRequired <> searchFailedPrefix +:+ m).
Proof.
  intros Hb Hp. cbv zeta.
  rewrite (searchFlights_post_rejected _ _ _ _ _ _ _ _ Hb Hp). simpl.
  eexists. split; [reflexivity |]. split; [| split].
  - intros r -> Hst. unfold rethrow. simpl. rewrite Hst. reflexivity.
  - intros Hnot401.
    assert (H401 : match response with
                   | Some r => resp_status r =? 401
                   | None => false
                   end = false).
    { destruct Hnot401 as [-> | (r & -> & Hst)]; [reflexivity |].
      apply Z.eqb_neq. exact Hst. }
    unfold rethrow. simpl caught_response. rewrite H401. split.
    + intros m -> Hm. rewrite Hm. reflexivity.
    + intros Hnone. simpl caught_message.
      destruct (upstreamMessage _) as [m|]; [| reflexivity].
      simpl in Hnone. rewrite Hnone. reflexivity.
  - apply authenticationRequired_distinct.
Qed.

(** ** Storage failures during a search *)

Lemma saveRecentSearch_read_fails io clock w searchRequest :
  getItemFails io = true ->
  storage (saveRecentSearch io clock w searchRequest) = storage w.
Proof.
  intros Hio. unfold saveRecentSearch, AsyncStorage.getItem. rewrite Hio.
  reflexivity.
Qed.

Lemma saveRecentSearch_write_fails io clock w searchRequest :
  setItemFails io = true ->
  storage (saveRecentSearch io clock w searchRequest) = storage w.
Proof.
  intros Hio. unfold saveRecentSearch, AsyncStorage.getItem.
  destruct (getItemFails io); [reflexivity |].
  destruct (match storage w !! RECENT_SEARCHES_KEY with
            | Some text => if textTruthy text then JSON_parse text else Some (JArr [])
            | None => Some (JArr [])
            end) as [[]|]; try reflexivity.
  unfold AsyncStorage.setItem. rewrite Hio. reflexivity.
Qed.

(** C10.  When the POST succeeds and the upstream answered with a body, the
    search returns the shaped response, which is made from the response
    alone: this holds for every state of the storage and for every failure of
    the storage calls of [saveRecentSearch], and when the read or the write
    of the storage fails the search still returns, with the storage left as
    it was. *)
Theorem search_result_survives_storage_failure
    post io clock w searchRequest br response :
  build searchRequest = Returned br ->
  post "/flights/search" br = Resolved response ->
  resp_data response <> JNull ->
  exists result,
    shapeResponse typeErrorMessage response = inr result
    /\ snd (search post io clock w searchRequest) = Returned result
    /\ (getItemFails io = true \/ setItemFails io = true ->
        storage (fst (search post io clock w searchRequest)) = storage w).
Proof.
  intros Hb Hp Hbody.
  rewrite (searchFlights_post_resolved _ _ _ _ _ _ _ Hb Hp). simpl.
  assert (Hshape : exists result,
             shapeResponse typeErrorMessage response = inr result).
  { unfold shapeResponse.
    destruct (resp_data response); try (eexists; reflexivity). contradiction. }
  destruct Hshape as [result Hshape]. exists result. rewrite Hshape.
  split; [reflexivity |]. split; [reflexivity |].
  intros [Hio | Hio].
  - rewrite saveRecentSearch_read_fails by exact Hio. reflexivity.
  - rewrite saveRecentSearch_write_fails by exact Hio. reflexivity.
Qed.

(** ** Appending a recent search *)

(** With a storage that works, an append onto a list that can be read stores
    the first 10 of the new record followed by that list. *)
Lemma saveRecentSearch_appends clock w searchRequest items :
  currentRecentSearches w = Some items ->
  saveRecentSearch reliable clock w searchRequest
  = {| storage := <[RECENT_SEARCHES_KEY :=
                      Serialized (JArr (take 10 (newRecentSearch clock searchRequest
                                                 :: items)))]> (storage w);
       effects := SetItem RECENT_SEARCHES_KEY
                    (Serialized (JArr (take 10 (newRecentSearch clock searchRequest
                                                :: items))))
                  :: GetItem RECENT_SEARCHES_KEY :: effects w |}.
Proof.
  unfold currentRecentSearches, saveRecentSearch, AsyncStorage.getItem. simpl.
  destruct (storage w !! RECENT_SEARCHES_KEY) as [text|].
  - destruct (textTruthy text).
    + destruct (JSON_parse text) as [[]|]; try discriminate.
      intros [= ->]. reflexivity.
    + intros [= <-]. reflexivity.
  - intros [= <-]. reflexivity.
Qed.

(** An append onto a stored text that cannot be read as a list is given up
    after the read. *)
Lemma saveRecentSearch_gives_up io clock w searchRequest :
  currentRecentSearches w = None ->
  saveRecentSearch io clock w searchRequest
  = logEffect (GetItem RECENT_SEARCHES_KEY) w.
Proof.
  unfold currentRecentSearches, saveRecentSearch, AsyncStorage.getItem.
  destruct (getItemFails io); [reflexivity |].
  destruct (storage w !! RECENT_SEARCHES_KEY) as [text|]; [| discriminate].
  destruct (textTruthy text); [| discriminate].
  destruct (JSON_parse text) as [[]|]; try discriminate; reflexivity.
Qed.

(** C4, as the code has it.  With a storage that works, an append takes the
    current list as empty when nothing (or the empty text) is stored and as
    the stored array when there is one, puts the new record first, keeps the
    first 10 and writes that back.  When the stored text is corrupt (it does
    not parse) the append is given up: the error is swallowed, nothing is
    written and the corrupt text stays in the store. *)
Theorem saveRecentSearch_cases clock w searchRequest :
  let w' := saveRecentSearch reliable clock w searchRequest in
  let record := newRecentSearch clock searchRequest in
  (storage w !! RECENT_SEARCHES_KEY = None
   \/ storage w !! RECENT_SEARCHES_KEY = Some (Malformed "") ->
   storage w' !! RECENT_SEARCHES_KEY = Some (Serialized (JArr [record])))
  /\ (forall items,
        storage w !! RECENT_SEARCHES_KEY = Some (Serialized (JArr items)) ->
        storage w' !! RECENT_SEARCHES_KEY
        = Some (Serialized (JArr (take 10 (record :: items)))))
  /\ (forall raw,
        storage w !! RECENT_SEARCHES_KEY = Some (Malformed raw) ->
        raw <> "" ->
        storage w' = storage w
        /\ effects w' = GetItem RECENT_SEARCHES_KEY :: effects w).
Proof.
  cbv zeta. split; [| split].
  - intros Hstored.
    rewrite (saveRecentSearch_appends clock w searchRequest []).
    + simpl. apply lookup_insert_eq.
    + unfold currentRecentSearches.
      destruct Hstored as [-> | ->]; reflexivity.
  - intros items Hstored.
    rewrite (saveRecentSearch_appends clock w searchRequest items).
    + simpl. apply lookup_insert_eq.
    + unfold currentRecentSearches. rewrite Hstored. reflexivity.
  - intros raw Hstored Hraw.
    rewrite saveRecentSearch_gives_up; [split; reflexivity |].
    unfold currentRecentSearches. rewrite Hstored. simpl.
    apply emptyb_false in Hraw. rewrite Hraw. reflexivity.
Qed.

(** ** Popular routes *)

(** C7.  With a storage that works and for every content of it, two calls of
    [getPopularRoutes] in a row return the same content, and the second call
    only reads: it writes nothing and leaves the storage as the first call
    left it.  The first call writes the seed list when nothing (or the empty
    text) is stored under the key, and only reads otherwise.  What the calls
    return: the seed list, twice, when nothing (or the empty text) was stored,
    the second time as the stored copy of it; the stored value, twice, when
    the stored text is the serialization of a value; the seed list, twice,
    when the stored text does not parse.  In every case the second call
    returns the value whose serialization the store holds after the first. *)
Theorem getPopularRoutes_twice (w : World) :
  let first := getPopularRoutes reliable w in
  let second := getPopularRoutes reliable (fst first) in
  snd second = snd first
  /\ effects (fst second) = GetItem POPULAR_ROUTES_KEY :: effects (fst first)
  /\ storage (fst second) = storage (fst first)
  /\ (storage w !! POPULAR_ROUTES_KEY = None
      \/ storage w !! POPULAR_ROUTES_KEY = Some (Malformed "") ->
      effects (fst first)
      = SetItem POPULAR_ROUTES_KEY (JSON_stringify mockPopularRoutes_json)
        :: GetItem POPULAR_ROUTES_KEY :: effects w
      /\ storage (fst first)
         = <[POPULAR_ROUTES_KEY := JSON_stringify mockPopularRoutes_json]>
             (storage w))
  /\ ((exists text, storage w !! POPULAR_ROUTES_KEY = Some text
                    /\ textTruthy text = true) ->
      fst first = logEffect (GetItem POPULAR_ROUTES_KEY) w)
  /\ (storage w !! POPULAR_ROUTES_KEY = None
      \/ storage w !! POPULAR_ROUTES_KEY = Some (Malformed "") ->
      snd first = mockPopularRoutes_json
      /\ snd second = mockPopularRoutes_json)
  /\ (forall v,
        storage w !! POPULAR_ROUTES_KEY = Some (Serialized v) ->
        snd first = v /\ snd second = v)
  /\ (forall raw,
        storage w !! POPULAR_ROUTES_KEY = Some (Malformed raw) ->
        raw <> "" ->
        snd first = mockPopularRoutes_json
        /\ snd second = mockPopularRoutes_json)
  /\ (forall v,
        storage (fst first) !! POPULAR_ROUTES_KEY = Some (Serialized v) ->
        snd second = v).
Proof.
  cbv zeta.
  assert (Hseeded :
    forall w0,
      storage w0 !! POPULAR_ROUTES_KEY = None
      \/ storage w0 !! POPULAR_ROUTES_KEY = Some (Malformed "") ->
      getPopularRoutes reliable w0
      = ({| storage := <[POPULAR_ROUTES_KEY := JSON_stringify mockPopularRoutes_json]>
                         (storage w0);
            effects := SetItem POPULAR_ROUTES_KEY
                         (JSON_stringify mockPopularRoutes_json)
                       :: GetItem POPULAR_ROUTES_KEY :: effects w0 |},
         mockPopularRoutes_json)).
  { intros w0 Hst. unfold getPopularRoutes, AsyncStorage.getItem. simpl.
    destruct Hst as [-> | ->]; reflexivity. }
  assert (Hkept :
    forall w0 text,
      storage w0 !! POPULAR_ROUTES_KEY = Some text ->
      textTruthy text = true ->
      getPopularRoutes reliable w0
      = (logEffect (GetItem POPULAR_ROUTES_KEY) w0,
         match JSON_parse text with
         | Some v => v
         | None => mockPopularRoutes_json
         end)).
  { intros w0 text Hst Htruthy. unfold getPopularRoutes, AsyncStorage.getItem.
    simpl. rewrite Hst, Htruthy. destruct (JSON_parse text); reflexivity. }
  destruct (storage w !! POPULAR_ROUTES_KEY) as [text|] eqn:Hstored.
  - destruct (textTruthy text) eqn:Htruthy.
    + rewrite (Hkept w text Hstored Htruthy). simpl.
      rewrite (Hkept (logEffect (GetItem POPULAR_ROUTES_KEY) w) text Hstored Htruthy).
      simpl.
      assert (Hnot_empty : Some text <> Some (Malformed ""))
        by (intros [= ->]; discriminate).
      split; [reflexivity |]. split; [reflexivity |]. split; [reflexivity |].
      split; [intros [Habs | Habs]; [discriminate | contradiction] |].
      split; [reflexivity |].
      split; [intros [Habs | Habs]; [discriminate | contradiction] |].
      split; [intros v [= ->]; split; reflexivity |].
      split; [intros raw [= ->] _; split; reflexivity |].
      intros v Hv. rewrite Hstored in Hv. injection Hv as ->. reflexivity.
    + assert (Hraw : text = Malformed "").
      { destruct text as [v|raw]; [discriminate |].
        simpl in Htruthy. apply negb_false_iff, emptyb_true in Htruthy.
        subst raw. reflexivity. }
      subst text.
      rewrite (Hseeded w (or_intror Hstored)). simpl.
      erewrite Hkept; [| simpl; apply lookup_insert_eq | reflexivity].
      simpl.
      split; [reflexivity |]. split; [reflexivity |]. split; [reflexivity |].
      split; [intros _; split; reflexivity |].
      split; [intros (text & [= <-] & Habs); discriminate |].
      split; [intros _; split; reflexivity |].
      split; [intros v Habs; discriminate |].
      split; [intros raw [= <-] Hraw; contradiction |].
      intros v Hv. rewrite lookup_insert_eq in Hv. injection Hv as <-.
      reflexivity.
  - rewrite (Hseeded w (or_introl Hstored)). simpl.
    erewrite Hkept; [| simpl; apply lookup_insert_eq | reflexivity].
    simpl.
    split; [reflexivity |]. split; [reflexivity |]. split; [reflexivity |].
    split; [intros _; split; reflexivity |].
    split; [intros (text & Habs & _); discriminate |].
    split; [intros _; split; reflexivity |].
    split; [intros v Habs; discriminate |].
    split; [intros raw Habs; discriminate |].
    intros v Hv. rewrite lookup_insert_eq in Hv. injection Hv as <-.
    reflexivity.
Qed.

(** ** Runs of searches *)

Lemma take_app_take {A : Type} (n m : nat) (l k : list A) :
  (n <= m)%nat -> take n (l ++ take m k) = take n (l ++ k).
Proof.
  revert n. induction l as [|a l IH]; intros n Hnm; simpl.
  - rewrite take_take. f_equal. lia.
  - destruct n as [|n]; [reflexivity |]. simpl. f_equal. apply IH. lia.
Qed.

(** A search that returns has posted and then run [saveRecentSearch]. *)
Lemma searchFlights_returned_world post io clock w searchRequest :
  isReturned (snd (search post io clock w searchRequest)) = true ->
  exists br,
    fst (search post io clock w searchRequest)
    = saveRecentSearch io clock (logEffect (Post "/flights/search" br) w)
        searchRequest.
Proof.
  unfold searchFlights.
  destruct (build searchRequest) as [br|message]; [| discriminate].
  destruct (post "/flights/search" br) as [response|message response];
    [| discriminate].
  intros _. exists br.
  destruct (shapeResponse typeErrorMessage response); reflexivity.
Qed.

Lemma searchAll_recent post searches :
  forall w items,
    currentRecentSearches w = Some items ->
    forallb isReturned
      (snd (searchAll dateValid toUpperCase typeErrorMessage post reliable w searches)) = true ->
    searches <> [] ->
    storage (fst (searchAll dateValid toUpperCase typeErrorMessage post reliable w searches))
      !! RECENT_SEARCHES_KEY
    = Some (Serialized (JArr (take 10 (reverse (recordsOf searches) ++ items)))).
Proof.
  induction searches as [|[clock searchRequest] rest IH];
    intros w items Hcur Hok Hne; [contradiction |].
  simpl in Hok |- *.
  destruct (search post reliable clock w searchRequest) as [w1 outcome] eqn:Hstep.
  destruct (searchAll dateValid toUpperCase typeErrorMessage post reliable w1 rest)
    as [w2 outcomes] eqn:Hrest.
  simpl in Hok |- *. apply andb_true_iff in Hok as [Hout Houts].
  assert (Hret : isReturned (snd (search post reliable clock w searchRequest)) = true)
    by (rewrite Hstep; exact Hout).
  destruct (searchFlights_returned_world _ _ _ _ _ Hret) as [br Hw1].
  rewrite Hstep in Hw1. simpl in Hw1.
  rewrite (saveRecentSearch_appends clock
             (logEffect (Post "/flights/search" br) w) searchRequest items Hcur)
    in Hw1.
  assert (Hcur1 : currentRecentSearches w1
                  = Some (take 10 (newRecentSearch clock searchRequest :: items))).
  { subst w1. unfold currentRecentSearches. simpl storage.
    rewrite lookup_insert_eq. reflexivity. }
  rewrite reverse_cons, <- app_assoc. simpl app.
  destruct rest as [|next rest'].
  - simpl in Hrest. injection Hrest as <- <-. subst w1. simpl storage.
    rewrite lookup_insert_eq. reflexivity.
  - specialize (IH w1 _ Hcur1). rewrite Hrest in IH. simpl fst in IH.
    simpl snd in IH. rewrite (IH Houts) by discriminate.
    rewrite take_app_take by lia. reflexivity.
Qed.

(** C1, as the code has it.  Take a store whose recent-searches key is absent
    or holds an array, a storage that works, and a run of more than 10
    searches that all return.
    Afterwards the key holds exactly 10 records: the records of the last 10
    searches of the run, the newest first (the record at position [i] is the
    one of the search made [i] searches before the last), and that is the
    list [getRecentSearches] returns. *)
Theorem recent_searches_keep_latest_ten post w searches :
  storage w !! RECENT_SEARCHES_KEY = None
  \/ (exists old, storage w !! RECENT_SEARCHES_KEY = Some (Serialized (JArr old))) ->
  forallb isReturned
    (snd (searchAll dateValid toUpperCase typeErrorMessage post reliable w searches)) = true ->
  (10 < length searches)%nat ->
  let after := fst (searchAll dateValid toUpperCase typeErrorMessage post reliable w searches) in
  let latest := take 10 (reverse (recordsOf searches)) in
  storage after !! RECENT_SEARCHES_KEY = Some (Serialized (JArr latest))
  /\ length latest = 10%nat
  /\ (forall i, (i < 10)%nat ->
                latest !! i = recordsOf searches !! (length searches - S i)%nat)
  /\ snd (getRecentSearches reliable after) = JArr latest.
Proof.
  intros Hinit Hok Hlen. cbv zeta.
  assert (Hrecords : length (recordsOf searches) = length searches)
    by (unfold recordsOf; apply length_map).
  assert (Hcur : exists items, currentRecentSearches w = Some items).
  { unfold currentRecentSearches.
    destruct Hinit as [-> | (old & ->)]; eexists; reflexivity. }
  destruct Hcur as [items Hcur].
  assert (Hstored :
    storage (fst (searchAll dateValid toUpperCase typeErrorMessage post reliable w searches))
      !! RECENT_SEARCHES_KEY
    = Some (Serialized (JArr (take 10 (reverse (recordsOf searches)))))).
  { rewrite (searchAll_recent post searches w items Hcur Hok).
    - rewrite take_app_le; [reflexivity |]. rewrite length_reverse. lia.
    - destruct searches; [simpl in Hlen; lia | discriminate]. }
  split; [exact Hstored |]. split; [| split].
  - rewrite length_take, length_reverse. lia.
  - intros i Hi. rewrite lookup_take_lt by exact Hi.
    rewrite reverse_lookup by lia. rewrite Hrecords. reflexivity.
  - unfold getRecentSearches, AsyncStorage.getItem. simpl.
    rewrite Hstored. reflexivity.
Qed.

End Properties.

(** ** The service on concrete requests *)

Example sampleRequest_normalised :
  buildBackendRequest isoCalendarDate Js.asciiUpperCase sampleRequest = Returned sampleBackendRequest.
Proof. vm_compute. reflexivity. Qed.

Lemma recent_searches_keep_latest_ten_witness :
  storage (fst (searchAll isoCalendarDate Js.asciiUpperCase "" upstreamWithoutData reliable
                  emptyWorld elevenSearches)) !! RECENT_SEARCHES_KEY
  = Some (Serialized (JArr (take 10 (reverse (recordsOf elevenSearches))))).
Proof.
  refine (proj1 (recent_searches_keep_latest_ten isoCalendarDate Js.asciiUpperCase ""
                   upstreamWithoutData emptyWorld elevenSearches _ _ _)).
  - left. reflexivity.
  - vm_compute. reflexivity.
  - simpl. lia.
Defined.

Lemma return_date_omitted_witness :
  exists br,
    buildBackendRequest isoCalendarDate Js.asciiUpperCase sampleRequest = Returned br
    /\ backend_returnDate br = None.
Proof.
  destruct (return_date_omitted_iff_absent_or_unparsable isoCalendarDate Js.asciiUpperCase ""
              isoCalendarDate_not_blank sampleRequest)
    as (br & Hb & Hiff & _).
  - vm_compute. reflexivity.
  - discriminate.
  - discriminate.
  - reflexivity.
  - reflexivity.
  - exists br. split; [exact Hb |].
    apply Hiff. right. exists "next week". split; [reflexivity |].
    vm_compute. reflexivity.
Defined.

Lemma missing_entity_id_rejected_witness :
  exists message,
    searchFlights isoCalendarDate Js.asciiUpperCase "" upstreamWithoutData reliable sampleClock
      emptyWorld requestWithoutEntityId
    = (emptyWorld, Thrown (searchFailedPrefix +:+ message))
    /\ message = entityIdsRequired.
Proof.
  destruct (missing_entity_id_rejected isoCalendarDate Js.asciiUpperCase "" upstreamWithoutData
              reliable sampleClock emptyWorld requestWithoutEntityId)
    as (message & Hrun & _ & _ & Hids).
  - right. reflexivity.
  - exists message. split; [exact Hrun |].
    apply Hids; [vm_compute; reflexivity | discriminate | discriminate].
Defined.

Lemma saveRecentSearch_cases_witness :
  storage (saveRecentSearch reliable sampleClock corruptWorld sampleRequest)
  = storage corruptWorld.
Proof.
  refine (proj1 (proj2 (proj2 (saveRecentSearch_cases sampleClock corruptWorld
                                 sampleRequest)) "[{" _ _)).
  - vm_compute. reflexivity.
  - discriminate.
Defined.

Lemma envelope_shaped_witness :
  exists result,
    snd (searchFlights isoCalendarDate Js.asciiUpperCase "" upstreamWithoutData reliable
           sampleClock emptyWorld sampleRequest) = Returned result
    /\ data result = JArr []
    /\ meta_count result = JNum 0
    /\ dictionaries result = JObj [].
Proof.
  destruct (envelope_shaped isoCalendarDate Js.asciiUpperCase "" upstreamWithoutData reliable
              sampleClock emptyWorld sampleRequest sampleBackendRequest
              {| resp_status := 200; resp_data := JObj [("success", JBool true)] |}
              [("success", JBool true)])
    as (result & Hrun & Hdata & _ & _ & _ & Hdict).
  - vm_compute. reflexivity.
  - reflexivity.
  - reflexivity.
  - exists result. split; [exact Hrun |].
    destruct Hdata as [Hoffers Hcount]; [reflexivity |].
    split; [exact Hoffers |]. split; [exact Hcount |].
    apply Hdict. reflexivity.
Defined.

Lemma upstream_failure_surfaced_witness :
  snd (searchFlights isoCalendarDate Js.asciiUpperCase "" upstreamBroken reliable sampleClock
         emptyWorld sampleRequest)
  = Thrown "Flight search failed: Provider unavailable".
Proof.
  destruct (upstream_failure_surfaced isoCalendarDate Js.asciiUpperCase "" upstreamBroken reliable
              sampleClock emptyWorld sampleRequest sampleBackendRequest
              "Request failed with status code 500"
              (Some {| resp_status := 500;
                       resp_data := JObj [("success", JBool false);
                                          ("message", JStr "Provider unavailable")] |}))
    as (thrown & Hrun & _ & Hother & _).
  - vm_compute. reflexivity.
  - reflexivity.
  - rewrite Hrun. f_equal.
    destruct Hother as [Hupstream _].
    + right. eexists. split; [reflexivity | simpl; lia].
    + apply (Hupstream (JStr "Provider unavailable")); reflexivity.
Defined.


Lemma same_route_rejected_by_search_screen_witness :
  snd (handleSearch isoCalendarDate Js.asciiUpperCase "" upstreamWithoutData reliable reliable
         sampleClock emptyWorld
         {| flightOffers := JArr []; popularRoutes := JArr [];
            recentSearches := JArr []; isLoading := false;
            searchError := None |}
         requestSameRoute)
  = Alert "Invalid Route" "Origin and destination cannot be the same".
Proof.
  refine (proj2 (proj1 (same_route_rejected_by_search_screen isoCalendarDate Js.asciiUpperCase ""
                          upstreamWithoutData reliable reliable sampleClock
                          emptyWorld _ requestSameRoute) _) _ _).
  - reflexivity.
  - discriminate.
  - discriminate.
Defined.

Lemma search_result_survives_storage_failure_witness :
  exists result,
    snd (searchFlights isoCalendarDate Js.asciiUpperCase "" upstreamWithoutData unreadable
           sampleClock corruptWorld sampleRequest) = Returned result
    /\ storage (fst (searchFlights isoCalendarDate Js.asciiUpperCase "" upstreamWithoutData
                       unreadable sampleClock corruptWorld sampleRequest))
       = storage corruptWorld.
Proof.
  destruct (search_result_survives_storage_failure isoCalendarDate Js.asciiUpperCase ""
              upstreamWithoutData unreadable sampleClock corruptWorld
              sampleRequest sampleBackendRequest
              {| resp_status := 200; resp_data := JObj [("success", JBool true)] |})
    as (result & _ & Hrun & Hstore).
  - vm_compute. reflexivity.
  - reflexivity.
  - discriminate.
  - exists result. split; [exact Hrun |]. apply Hstore. left. reflexivity.
Defined.

(** ** Where the code departs from the specification *)

(** Against C1: eleven searches that all return do not leave the ten latest
    records when the stored recent searches are corrupt (the corrupt text
    stays), nor when the reads of the storage are rejected (an empty store
    stays empty). *)
Lemma latest_ten_not_kept_on_corrupt_or_failing_store :
  (10 < length elevenSearches)%nat
  /\ forallb isReturned
       (snd (searchAll isoCalendarDate Js.asciiUpperCase "" upstreamWithoutData
               reliable corruptWorld elevenSearches)) = true
  /\ storage (fst (searchAll isoCalendarDate Js.asciiUpperCase ""
                     upstreamWithoutData reliable corruptWorld elevenSearches))
       !! RECENT_SEARCHES_KEY
     = Some (Malformed "[{")
  /\ Some (Malformed "[{")
     <> Some (Serialized (JArr (take 10 (reverse (recordsOf elevenSearches)))))
  /\ forallb isReturned
       (snd (searchAll isoCalendarDate Js.asciiUpperCase "" upstreamWithoutData
               unreadable emptyWorld elevenSearches)) = true
  /\ storage (fst (searchAll isoCalendarDate Js.asciiUpperCase ""
                     upstreamWithoutData unreadable emptyWorld elevenSearches))
       !! RECENT_SEARCHES_KEY
     = None
  /\ None
     <> Some (Serialized (JArr (take 10 (reverse (recordsOf elevenSearches))))).
Proof.
  split; [simpl; lia |]. split; [vm_compute; reflexivity |].
  split; [vm_compute; reflexivity |]. split; [discriminate |].
  split; [vm_compute; reflexivity |]. split; [vm_compute; reflexivity |].
  discriminate.
Qed.

(** Against C3: without the destination entity identifier and with a
    departure date that does not parse, the error is the one of the departure
    date, not the one that asks for the entity identifiers. *)
Lemma missing_entity_id_with_bad_date :
  destinationEntityId requestWithBadDate = None
  /\ searchFlights isoCalendarDate Js.asciiUpperCase "" upstreamWithoutData reliable sampleClock
       emptyWorld requestWithBadDate
     = (emptyWorld, Thrown "Flight search failed: Invalid departure date format")
  /\ "Flight search failed: Invalid departure date format" <> entityIdsRequired
  /\ "Flight search failed: Invalid departure date format"
     <> searchFailedPrefix +:+ entityIdsRequired.
Proof.
  split; [reflexivity |]. split; [vm_compute; reflexivity |].
  split; discriminate.
Qed.

(** Against C4: an append onto a corrupt stored value leaves the corrupt value
    in the store; the store does not hold the list of the new record. *)
Lemma append_onto_corrupt_value_lost :
  storage corruptWorld !! RECENT_SEARCHES_KEY = Some (Malformed "[{")
  /\ JSON_parse (Malformed "[{") = None
  /\ storage (saveRecentSearch reliable sampleClock corruptWorld sampleRequest)
       !! RECENT_SEARCHES_KEY
     = Some (Malformed "[{")
  /\ storage (saveRecentSearch reliable sampleClock corruptWorld sampleRequest)
       !! RECENT_SEARCHES_KEY
     <> Some (Serialized (JArr [newRecentSearch sampleClock sampleRequest])).
Proof.
  assert (Hafter :
    storage (saveRecentSearch reliable sampleClock corruptWorld sampleRequest)
      !! RECENT_SEARCHES_KEY
    = Some (Malformed "[{")) by (vm_compute; reflexivity).
  split; [vm_compute; reflexivity |]. split; [reflexivity |].
  split; [exact Hafter |]. rewrite Hafter. discriminate.
Qed.

(** Against C9: [searchFlights] makes and posts a provider request for a
    search from JFK to JFK. *)
Lemma same_route_reaches_network :
  originLocationCode requestSameRoute = destinationLocationCode requestSameRoute
  /\ exists br,
       buildBackendRequest isoCalendarDate Js.asciiUpperCase requestSameRoute = Returned br
       /\ originSkyId br = destinationSkyId br
       /\ In (Post "/flights/search" br)
             (effects (fst (searchFlights isoCalendarDate Js.asciiUpperCase "" upstreamWithoutData
                              reliable sampleClock emptyWorld requestSameRoute))).
Proof.
  split; [reflexivity |]. eexists. split; [vm_compute; reflexivity |].
  split; [reflexivity |]. vm_compute. right. right. left. reflexivity.
Qed.

(** * More properties of the service and of its callers *)

Section CacheProperties.

Variable dateValid : string -> bool.
Variable toUpperCase : string -> string.
Variable typeErrorMessage : string.

Local Abbreviation search := (searchFlights dateValid toUpperCase typeErrorMessage).
Local Abbreviation run := (searchAll dateValid toUpperCase typeErrorMessage).

(** ** Clearing *)

(** X1.  When the removal is not rejected, [clearRecentSearches] leaves no
    value under the key of the recent searches and touches no other key, and
    [getRecentSearches] then returns the empty list, whether its read is
    rejected or not. *)
Theorem cleared_recent_searches_read_empty io ioRead w :
  removeItemFails io = false ->
  let w' := clearRecentSearches io w in
  storage w' !! RECENT_SEARCHES_KEY = None
  /\ (forall k, k <> RECENT_SEARCHES_KEY -> storage w' !! k = storage w !! k)
  /\ snd (getRecentSearches ioRead w') = JArr [].
Proof.
  intros Hio. cbv zeta.
  unfold clearRecentSearches, AsyncStorage.removeItem. rewrite Hio. simpl.
  split; [apply lookup_delete_eq |]. split.
  - intros k Hk. apply lookup_delete_ne. congruence.
  - unfold getRecentSearches, AsyncStorage.getItem.
    destruct (getItemFails ioRead); [reflexivity |].
    simpl. rewrite lookup_delete_eq. reflexivity.
Qed.

(** ** Keys that are not the service's to change *)

Lemma saveRecentSearch_other_keys io clock w request k :
  k <> RECENT_SEARCHES_KEY ->
  storage (saveRecentSearch io clock w request) !! k = storage w !! k.
Proof.
  intros Hk. unfold saveRecentSearch, AsyncStorage.getItem.
  destruct (getItemFails io); [reflexivity |].
  destruct (match storage w !! RECENT_SEARCHES_KEY with
            | Some text => if textTruthy text then JSON_parse text else Some (JArr [])
            | None => Some (JArr [])
            end) as [[]|]; try reflexivity.
  unfold AsyncStorage.setItem. destruct (setItemFails io); [reflexivity |].
  simpl. apply lookup_insert_ne. congruence.
Qed.

(** The world after a search is the world before it, that world with the
    POST logged, or the latter after [saveRecentSearch]. *)
Lemma searchFlights_world post io clock w request :
  fst (search post io clock w request) = w
  \/ (exists br,
        fst (search post io clock w request)
        = logEffect (Post "/flights/search" br) w)
  \/ (exists br,
        fst (search post io clock w request)
        = saveRecentSearch io clock (logEffect (Post "/flights/search" br) w)
            request).
Proof.
  unfold searchFlights.
  destruct (buildBackendRequest dateValid toUpperCase request) as [br|message];
    [| left; reflexivity].
  destruct (post "/flights/search" br) as [response|message response].
  - right. right. exists br.
    destruct (shapeResponse typeErrorMessage response); reflexivity.
  - right. left. exists br. reflexivity.
Qed.

(** X2.  A search changes no storage key but the one of the recent searches:
    for every upstream, every failure of the storage calls and every request,
    the value under any other key (the popular routes, or a key of another
    service) is after the search what it was before. *)
Theorem searchFlights_keeps_other_keys post io clock w request k :
  k <> RECENT_SEARCHES_KEY ->
  storage (fst (search post io clock w request)) !! k = storage w !! k.
Proof.
  intros Hk.
  destruct (searchFlights_world post io clock w request)
    as [-> | [(br & ->) | (br & ->)]]; try reflexivity.
  rewrite saveRecentSearch_other_keys by exact Hk. reflexivity.
Qed.

(** X3.  [getPopularRoutes] never overwrites: when a non-empty text is stored
    under the key of the popular routes, the storage is after the call what it
    was before, whatever storage call fails, and the call returns the stored
    value when the read succeeds and the text parses, and the seed list
    otherwise.  No call touches another key. *)
Theorem popular_routes_never_overwritten io w :
  (forall k, k <> POPULAR_ROUTES_KEY ->
             storage (fst (getPopularRoutes io w)) !! k = storage w !! k)
  /\ (forall text,
        storage w !! POPULAR_ROUTES_KEY = Some text ->
        textTruthy text = true ->
        storage (fst (getPopularRoutes io w)) = storage w
        /\ (forall v, getItemFails io = false -> JSON_parse text = Some v ->
                      snd (getPopularRoutes io w) = v)
        /\ (getItemFails io = true \/ JSON_parse text = None ->
            snd (getPopularRoutes io w) = mockPopularRoutes_json)).
Proof.
  split.
  - intros k Hk. unfold getPopularRoutes, AsyncStorage.getItem.
    destruct (getItemFails io); [reflexivity |].
    assert (Hseed :
      storage (fst (AsyncStorage.setItem io POPULAR_ROUTES_KEY
                      (JSON_stringify mockPopularRoutes_json)
                      (logEffect (GetItem POPULAR_ROUTES_KEY) w))) !! k
      = storage w !! k).
    { unfold AsyncStorage.setItem. destruct (setItemFails io); [reflexivity |].
      simpl. apply lookup_insert_ne. congruence. }
    destruct (storage w !! POPULAR_ROUTES_KEY) as [text|]; [| exact Hseed].
    destruct (textTruthy text); [| exact Hseed].
    destruct (JSON_parse text); reflexivity.
  - intros text Hstored Htruthy.
    unfold getPopularRoutes, AsyncStorage.getItem.
    destruct (getItemFails io).
    + split; [reflexivity |]. split; [discriminate | reflexivity].
    + rewrite Hstored, Htruthy.
      destruct (JSON_parse text) as [v|]; simpl.
      * split; [reflexivity |]. split.
        -- intros v' _ [= <-]. reflexivity.
        -- intros [Habs | Habs]; discriminate.
      * split; [reflexivity |]. split; [discriminate | reflexivity].
Qed.

(** ** Reading back *)

(** X4.  With a storage that works, a record appended onto a list that can be
    read is the first one [getRecentSearches] returns afterwards; the list
    returned is the new record followed by the former list, cut to 10. *)
Theorem saved_search_is_read_back clock w request items :
  currentRecentSearches w = Some items ->
  exists stored,
    snd (getRecentSearches reliable (saveRecentSearch reliable clock w request))
    = JArr stored
    /\ stored = take 10 (newRecentSearch clock request :: items)
    /\ stored !! 0%nat = Some (newRecentSearch clock request)
    /\ (length stored <= 10)%nat.
Proof.
  intros Hcur. eexists. split; [| split; [reflexivity | split]].
  - rewrite (saveRecentSearch_appends clock w request items Hcur).
    unfold getRecentSearches, AsyncStorage.getItem. simpl.
    rewrite lookup_insert_eq. reflexivity.
  - reflexivity.
  - rewrite length_take. lia.
Qed.

(** ** A stored value that is not a list *)

Lemma searchFlights_keeps_unreadable post io clock w request :
  currentRecentSearches w = None ->
  storage (fst (search post io clock w request)) = storage w.
Proof.
  intros Hcur.
  destruct (searchFlights_world post io clock w request)
    as [-> | [(br & ->) | (br & ->)]]; try reflexivity.
  rewrite saveRecentSearch_gives_up by exact Hcur. reflexivity.
Qed.

(** X5.  A value under the key of the recent searches that is not a list (a
    text that does not parse, or the serialization of something else than an
    array) is never repaired by searching: after any run of searches, with any
    upstream and any storage failures, the key holds the same text, and when
    the text does not parse [getRecentSearches] returns the empty list. *)
Theorem unreadable_recent_searches_never_repaired post io w searches text :
  storage w !! RECENT_SEARCHES_KEY = Some text ->
  textTruthy text = true ->
  (forall items, JSON_parse text <> Some (JArr items)) ->
  let after := fst (run post io w searches) in
  storage after !! RECENT_SEARCHES_KEY = Some text
  /\ (JSON_parse text = None ->
      forall ioRead, snd (getRecentSearches ioRead after) = JArr []).
Proof.
  intros Hstored Htruthy Hnolist. cbv zeta.
  assert (Hkept : storage (fst (run post io w searches)) = storage w).
  { assert (Hcur : currentRecentSearches w = None).
    { unfold currentRecentSearches. rewrite Hstored, Htruthy.
      destruct (JSON_parse text) as [[]|]; try reflexivity.
      exfalso. exact (Hnolist _ eq_refl). }
    clear Hstored. revert w Hcur.
    induction searches as [|[clock request] rest IH]; intros w Hcur;
      [reflexivity |].
    simpl.
    pose proof (searchFlights_keeps_unreadable post io clock w request Hcur)
      as Hstep.
    destruct (search post io clock w request) as [w1 outcome]. simpl in Hstep.
    specialize (IH w1).
    destruct (run post io w1 rest) as [w2 outcomes]. simpl in IH |- *.
    rewrite IH; [exact Hstep |].
    unfold currentRecentSearches in Hcur |- *. rewrite Hstep. exact Hcur. }
  rewrite Hkept. split; [exact Hstored |].
  intros Hparse ioRead. unfold getRecentSearches, AsyncStorage.getItem.
  destruct (getItemFails ioRead); [reflexivity |].
  rewrite Hkept, Hstored, Htruthy, Hparse. reflexivity.
Qed.

(** ** Searches that fail *)

(** X6.  While the upstream rejects every request, no search is recorded and
    the storage is not even read: after any run of searches the storage is
    what it was, and the only effects are POSTs. *)
Theorem rejected_searches_are_not_recorded post io w searches :
  (forall url body, exists message response,
      post url body = Rejected message response) ->
  let after := fst (searchAll dateValid toUpperCase typeErrorMessage post io w searches) in
  storage after = storage w
  /\ exists posts,
       effects after = (posts ++ effects w)%list
       /\ Forall (fun e => exists url body, e = Post url body) posts.
Proof.
  intros Hdown. cbv zeta. revert w.
  induction searches as [|[clock request] rest IH]; intros w.
  - split; [reflexivity |]. exists []. split; [reflexivity | constructor].
  - simpl.
    assert (Hstep :
      fst (search post io clock w request) = w
      \/ exists br, fst (search post io clock w request)
                    = logEffect (Post "/flights/search" br) w).
    { unfold searchFlights.
      destruct (buildBackendRequest dateValid toUpperCase request) as [br|message];
        [| left; reflexivity].
      destruct (Hdown "/flights/search" br) as (message & response & ->).
      right. exists br. reflexivity. }
    destruct (search post io clock w request) as [w1 outcome]. simpl in Hstep.
    specialize (IH w1).
    destruct (run post io w1 rest) as [w2 outcomes]. simpl in IH |- *.
    destruct IH as (Hst & posts & Heff & Hposts).
    destruct Hstep as [-> | (br & ->)].
    + split; [exact Hst |]. exists posts. split; assumption.
    + split; [exact Hst |].
      exists (posts ++ [Post "/flights/search" br])%list. split.
      * rewrite Heff. simpl. rewrite <- app_assoc. reflexivity.
      * apply Forall_app. split; [exact Hposts |].
        constructor; [eexists; eexists; reflexivity | constructor].
Qed.

(** X7.  A search that is answered with a [null] body fails with the message
    of the engine's [TypeError] behind the failed-search prefix, and is
    recorded all the same, since the record is saved before the body is read:
    with a storage that works and a list that can be read, the key of the
    recent searches holds afterwards the new record followed by the former
    list, cut to 10. *)
Theorem search_with_null_body_is_recorded
    post clock w request br response items :
  buildBackendRequest dateValid toUpperCase request = Returned br ->
  post "/flights/search" br = Resolved response ->
  resp_data response = JNull ->
  currentRecentSearches w = Some items ->
  snd (search post reliable clock w request)
  = Thrown (searchFailedPrefix +:+ typeErrorMessage)
  /\ storage (fst (search post reliable clock w request)) !! RECENT_SEARCHES_KEY
     = Some (Serialized (JArr (take 10 (newRecentSearch clock request :: items)))).
Proof.
  intros Hb Hp Hbody Hcur. unfold searchFlights. rewrite Hb, Hp.
  unfold shapeResponse. rewrite Hbody. simpl. split; [reflexivity |].
  rewrite (saveRecentSearch_appends clock
             (logEffect (Post "/flights/search" br) w) request items Hcur).
  simpl. apply lookup_insert_eq.
Qed.

(** ** Short runs *)

(** X8.  While the list has room, nothing is dropped: with a storage that
    works, after a run of searches that all return, started from a list that
    can be read and such that the old and the new records are at most 10
    together, the key of the recent searches holds the records of the run,
    the newest first, followed by the former list. *)
Theorem short_run_keeps_every_record post w searches items :
  currentRecentSearches w = Some items ->
  forallb isReturned (snd (run post reliable w searches)) = true ->
  searches <> [] ->
  (length searches + length items <= 10)%nat ->
  storage (fst (run post reliable w searches)) !! RECENT_SEARCHES_KEY
  = Some (Serialized (JArr (reverse (recordsOf searches) ++ items))).
Proof.
  intros Hcur Hok Hne Hlen.
  rewrite (searchAll_recent dateValid toUpperCase typeErrorMessage post searches w items
             Hcur Hok Hne).
  rewrite take_ge; [reflexivity |].
  rewrite length_app, length_reverse. unfold recordsOf. rewrite length_map. lia.
Qed.

End CacheProperties.

(** ** Airport search *)

Lemma rethrowAirports_not_empty (error : Caught) : rethrowAirports error <> "".
Proof.
  unfold rethrowAirports.
  destruct (match caught_response error with
            | Some response => resp_status response =? 401
            | None => false
            end); discriminate.
Qed.

Lemma rethrow_not_empty (error : Caught) : rethrow error <> "".
Proof.
  unfold rethrow.
  destruct (match caught_response error with
            | Some response => resp_status response =? 401
            | None => false
            end); discriminate.
Qed.

Section AirportProperties.

Variable typeErrorMessage : string.
Variable codeUnits : string -> nat.

(** X9.  [searchAirports] issues one GET of the airport-search path with the
    query and the locale en-US.  When the answer is an envelope, the airports
    are the array of its [data] field and the count is the length of that
    array, and without a [data] field they are the empty array and 0.  When
    the GET fails, status 401 gives the authentication error and anything
    else an error that starts with the airport-search prefix and carries the
    message of the upstream body when it has one and the message of the
    transport error otherwise. *)
Theorem searchAirports_outcomes get query :
  let params := [("query", query); ("locale", "en-US")] in
  fst (searchAirports typeErrorMessage get query)
  = GetRequest "/flights/search-airports" params
  /\ (forall response fields,
        get "/flights/search-airports" params = Resolved response ->
        resp_data response = JObj fields ->
        exists result,
          snd (searchAirports typeErrorMessage get query) = Returned result
          /\ (forall airports,
                Js.field "data" fields = Some (JArr airports) ->
                airports_data result = JArr airports
                /\ airports_count result = JNum (Z.of_nat (length airports)))
          /\ (Js.field "data" fields = None ->
              airports_data result = JArr []
              /\ airports_count result = JNum 0))
  /\ (forall message response,
        get "/flights/search-airports" params = Rejected message response ->
        exists thrown,
          snd (searchAirports typeErrorMessage get query) = Thrown thrown
          /\ (forall r, response = Some r -> resp_status r = 401 ->
                        thrown = authenticationRequired)
          /\ (response = None
              \/ (exists r, response = Some r /\ resp_status r <> 401) ->
              exists detail,
                thrown = airportSearchFailedPrefix +:+ detail
                /\ (forall m,
                      upstreamMessage {| caught_message := message;
                                         caught_response := response |} = Some m ->
                      Js.truthy m = true -> detail = Js.toString m)
                /\ (Js.truthyOpt
                      (upstreamMessage {| caught_message := message;
                                          caught_response := response |}) = false ->
                    detail = message))).
Proof.
  cbv zeta. split; [reflexivity |]. split.
  - intros response fields Hget Hbody. unfold searchAirports. simpl.
    rewrite Hget. unfold shapeAirports. rewrite Hbody.
    eexists. split; [reflexivity |]. simpl. split.
    + intros airports ->. split; [reflexivity |]. apply valueOr_length.
    + intros ->. split; reflexivity.
  - intros message response Hget. unfold searchAirports. simpl. rewrite Hget.
    eexists. split; [reflexivity |]. split.
    + intros r -> Hst. unfold rethrowAirports. simpl. rewrite Hst. reflexivity.
    + intros Hnot401.
      assert (H401 : match response with
                     | Some r => resp_status r =? 401
                     | None => false
                     end = false).
      { destruct Hnot401 as [-> | (r & -> & Hst)]; [reflexivity |].
        apply Z.eqb_neq. exact Hst. }
      unfold rethrowAirports. simpl caught_response. rewrite H401.
      eexists. split; [reflexivity |]. split.
      * intros m -> Hm. rewrite Hm. reflexivity.
      * intros Hnone. simpl caught_message.
        destruct (upstreamMessage _) as [m|]; [| reflexivity].
        simpl in Hnone. rewrite Hnone. reflexivity.
Qed.

(** X10.  The airport search of the screen sends nothing for a query of fewer
    than 2 code units and empties the results; for a longer query it sends one
    GET with that query, and at the end the search indicator is off: either
    the service returned, the results are replaced by the airports of its
    response and no alert is shown, or the service threw, an alert with its
    message, which is not empty, is shown and the results stay as they were.
    The search request of the screen is never changed. *)
Theorem screen_airport_search get query s :
  let result := Screen_searchAirports typeErrorMessage codeUnits get query s in
  let requests := fst (fst result) in
  let s' := snd (fst result) in
  searchRequest s' = searchRequest s
  /\ ((codeUnits query < 2)%nat ->
      requests = [] /\ airportSearchResults s' = JArr [] /\ snd result = None)
  /\ ((2 <= codeUnits query)%nat ->
      requests = [GetRequest "/flights/search-airports"
                    [("query", query); ("locale", "en-US")]]
      /\ isSearchingAirports s' = false
      /\ ((exists response,
              snd (searchAirports typeErrorMessage get query) = Returned response
              /\ airportSearchResults s' = airports_data response
              /\ snd result = None)
          \/ (exists message,
                snd (searchAirports typeErrorMessage get query) = Thrown message
                /\ snd result = Some (Alert "Search Error" message)
                /\ message <> ""
                /\ airportSearchResults s' = airportSearchResults s))).
Proof.
  cbv zeta. unfold Screen_searchAirports.
  destruct (Nat.ltb_spec (codeUnits query) 2) as [Hshort | Hlong].
  - simpl. split; [reflexivity |]. split; [| lia].
    intros _. repeat split.
  - unfold searchAirports.
    destruct (match get "/flights/search-airports"
                      [("query", query); ("locale", "en-US")] with
              | Resolved response =>
                  match shapeAirports typeErrorMessage response with
                  | inl error => Thrown (rethrowAirports error)
                  | inr result => Returned result
                  end
              | Rejected message response =>
                  Thrown (rethrowAirports {| caught_message := message;
                                             caught_response := response |})
              end) as [response|message] eqn:Hout; simpl.
    + split; [reflexivity |]. split; [lia |].
      intros _. split; [reflexivity |]. split; [reflexivity |]. left.
      exists response. repeat split.
    + split; [reflexivity |]. split; [lia |].
      intros _. split; [reflexivity |]. split; [reflexivity |]. right.
      assert (Hne : message <> "").
      { destruct (get "/flights/search-airports"
                      [("query", query); ("locale", "en-US")])
          as [response|m response].
        - destruct (shapeAirports typeErrorMessage response);
            [| discriminate].
          injection Hout as <-. apply rethrowAirports_not_empty.
        - injection Hout as <-. apply rethrowAirports_not_empty. }
      exists message. split; [reflexivity |].
      split; [| split; [exact Hne | reflexivity]].
      apply emptyb_false in Hne. unfold Js.orElse. rewrite Hne. reflexivity.
Qed.

End AirportProperties.

(** ** The flight context and the search screen *)

Section ContextProperties.

Variable dateValid : string -> bool.
Variable toUpperCase : string -> string.
Variable typeErrorMessage : string.

Lemma searchFlights_thrown_not_empty post io clock w request message :
  snd (searchFlights dateValid toUpperCase typeErrorMessage post io clock w request)
  = Thrown message ->
  message <> "".
Proof.
  unfold searchFlights.
  destruct (buildBackendRequest dateValid toUpperCase request) as [br|m]; simpl.
  - destruct (post "/flights/search" br) as [response|m response]; simpl.
    + destruct (shapeResponse typeErrorMessage response); simpl;
        [| discriminate].
      intros [= <-]. apply rethrow_not_empty.
    + intros [= <-]. apply rethrow_not_empty.
  - intros [= <-]. apply rethrow_not_empty.
Qed.

(** X11.  After a search that succeeds, with a storage that works and a list
    of recent searches that can be read, the state of the context shows the
    new search first in its recent searches (the new record followed by the
    former list, cut to 10), holds the offers of the response, has no error
    and is not loading. *)
Theorem successful_search_refreshes_recent_searches
    post clock w s request br response items :
  buildBackendRequest dateValid toUpperCase request = Returned br ->
  post "/flights/search" br = Resolved response ->
  resp_data response <> JNull ->
  currentRecentSearches w = Some items ->
  let s' := snd (FlightContext_searchFlights dateValid toUpperCase typeErrorMessage post
                   reliable reliable clock w s request) in
  recentSearches s' = JArr (take 10 (newRecentSearch clock request :: items))
  /\ flightOffers s' = valueOr (Js.prop "data" (resp_data response)) (JArr [])
  /\ searchError s' = None
  /\ isLoading s' = false
  /\ popularRoutes s' = popularRoutes s.
Proof.
  intros Hb Hp Hbody Hcur. cbv zeta.
  unfold FlightContext_searchFlights, searchFlights. rewrite Hb, Hp.
  rewrite (saveRecentSearch_appends clock
             (logEffect (Post "/flights/search" br) w) request items Hcur).
  unfold shapeResponse.
  destruct (resp_data response) eqn:Hdata; try contradiction;
    unfold getRecentSearches, AsyncStorage.getItem; simpl;
    rewrite lookup_insert_eq; simpl; repeat split.
Qed.

(** X12.  When a request passes the checks of [handleSearch] and the service
    throws, the screen goes to the results all the same: the error does not
    reach [handleSearch], the state of the context carries the message of
    the service, which is never empty, has no offers, is not loading, and
    keeps its recent searches and popular routes. *)
Theorem failed_search_still_opens_results
    post ioSave ioRead clock w s request message :
  originLocationCode request <> "" ->
  destinationLocationCode request <> "" ->
  departureDate request <> "" ->
  originLocationCode request <> destinationLocationCode request ->
  snd (searchFlights dateValid toUpperCase typeErrorMessage post ioSave clock w request)
  = Thrown message ->
  let result := handleSearch dateValid toUpperCase typeErrorMessage post ioSave ioRead
                  clock w s request in
  let s' := snd (fst result) in
  snd result = FlightResults request
  /\ searchError s' = Some message
  /\ message <> ""
  /\ flightOffers s' = JArr []
  /\ isLoading s' = false
  /\ recentSearches s' = recentSearches s
  /\ popularRoutes s' = popularRoutes s.
Proof.
  intros Ho Hd Hdep Hdiff Hthrown. cbv zeta.
  pose proof (searchFlights_thrown_not_empty _ _ _ _ _ _ Hthrown) as Hne.
  unfold handleSearch.
  apply emptyb_false in Ho. apply emptyb_false in Hd. apply emptyb_false in Hdep.
  rewrite Ho, Hd, Hdep. simpl.
  apply String.eqb_neq in Hdiff. rewrite Hdiff.
  unfold FlightContext_searchFlights.
  destruct (searchFlights dateValid toUpperCase typeErrorMessage post ioSave clock w request)
    as [w1 outcome].
  simpl in Hthrown. subst outcome. simpl.
  apply emptyb_false in Hne. unfold Js.orElse. rewrite Hne.
  apply emptyb_false in Hne. repeat split. exact Hne.
Qed.

(** X13.  When the removal is rejected, [clearRecentSearches] of the context
    still empties the list of the state while the stored list stays, so the
    next [getRecentSearches] of the context brings the records back. *)
Theorem failed_clear_is_undone_by_reload io w s items :
  removeItemFails io = true ->
  storage w !! RECENT_SEARCHES_KEY = Some (Serialized (JArr items)) ->
  let cleared := FlightContext_clearRecentSearches io w s in
  let reloaded := FlightContext_getRecentSearches reliable (fst cleared)
                    (snd cleared) in
  recentSearches (snd cleared) = JArr []
  /\ storage (fst cleared) = storage w
  /\ recentSearches (snd reloaded) = JArr items.
Proof.
  intros Hio Hstored. cbv zeta.
  unfold FlightContext_clearRecentSearches, clearRecentSearches,
    AsyncStorage.removeItem.
  rewrite Hio. simpl. split; [reflexivity |]. split; [reflexivity |].
  unfold FlightContext_getRecentSearches, getRecentSearches,
    AsyncStorage.getItem. simpl.
  rewrite Hstored. reflexivity.
Qed.

(** X14.  [swapAirports] exchanges the two airport codes and nothing else:
    done twice it gives the request back, and the two entity identifiers stay
    where they were, so the provider request made after a swap carries the
    code of the former destination as origin together with the entity
    identifier of the former origin. *)
Theorem swapAirports_swaps_codes_only (s : SearchScreen) :
  searchRequest (swapAirports (swapAirports s)) = searchRequest s
  /\ originLocationCode (searchRequest (swapAirports s))
     = destinationLocationCode (searchRequest s)
  /\ destinationLocationCode (searchRequest (swapAirports s))
     = originLocationCode (searchRequest s)
  /\ originEntityId (searchRequest (swapAirports s))
     = originEntityId (searchRequest s)
  /\ destinationEntityId (searchRequest (swapAirports s))
     = destinationEntityId (searchRequest s)
  /\ (forall br,
        buildBackendRequest dateValid toUpperCase (searchRequest (swapAirports s))
        = Returned br ->
        originSkyId br = destinationLocationCode (searchRequest s)
        /\ backend_originEntityId br = originEntityId (searchRequest s)
        /\ destinationSkyId br = originLocationCode (searchRequest s)
        /\ backend_destinationEntityId br
           = destinationEntityId (searchRequest s)).
Proof.
  split; [| split; [| split; [| split; [| split]]]]; try reflexivity.
  - simpl. destruct (searchRequest s). reflexivity.
  - intros br Hb.
    destruct (buildBackendRequest_fields dateValid toUpperCase _ _ Hb)
      as (Ho & Hd & Hoe & Hde & _).
    repeat split; assumption.
Qed.

(** X15.  After an airport has been chosen for the origin and one for the
    destination, each with a code (sky identifier, or else IATA code) and an
    identifier (entity identifier, or else id) that are not empty, the
    request of the screen passes the checks of the codes and of the entity
    identifiers: with a departure date that parses, [searchFlights] makes a
    provider request that carries these codes and identifiers.  The modal is
    closed and the two airports are the selected ones. *)
Theorem selected_airports_pass_the_checks (a b : Airport) (s : SearchScreen) :
  stringOr (skyId a) (iataCode a) <> "" ->
  stringOr (entityId a) (airport_id a) <> "" ->
  stringOr (skyId b) (iataCode b) <> "" ->
  stringOr (entityId b) (airport_id b) <> "" ->
  dateValid (departureDate (searchRequest s)) = true ->
  let s' := handleAirportSelect b
              (openAirportModal DestinationAirport
                 (handleAirportSelect a (openAirportModal OriginAirport s))) in
  (exists br,
      buildBackendRequest dateValid toUpperCase (searchRequest s') = Returned br
      /\ originSkyId br = stringOr (skyId a) (iataCode a)
      /\ destinationSkyId br = stringOr (skyId b) (iataCode b)
      /\ backend_originEntityId br
         = Some (stringOr (entityId a) (airport_id a))
      /\ backend_destinationEntityId br
         = Some (stringOr (entityId b) (airport_id b)))
  /\ selectedOrigin s' = Some a
  /\ selectedDestination s' = Some b
  /\ showAirportModal s' = false.
Proof.
  intros Hca Hia Hcb Hib Hdate. cbv zeta. simpl.
  split; [| repeat split].
  destruct (buildBackendRequest_passes dateValid toUpperCase
              (withDestination b (withOrigin a (searchRequest s))))
    as [br Hb]; simpl; try assumption.
  - apply negb_true_iff, emptyb_false. exact Hia.
  - apply negb_true_iff, emptyb_false. exact Hib.
  - exists br. split; [exact Hb |].
    destruct (buildBackendRequest_fields dateValid toUpperCase _ _ Hb)
      as (Ho & Hd & Hoe & Hde & _).
    simpl in Ho, Hd, Hoe, Hde. repeat split; assumption.
Qed.

End ContextProperties.

(** ** The age of a recent search *)

Section HomeScreenProperties.

Variable dateTime : string -> option Z.

(** X16.  For a date that parses and lies less than 2^53 milliseconds from
    now, [formatDate] shows "Just now" for everything younger than an hour,
    dates in the future included; from one hour up to a day the whole hours,
    from 1 to 23; and from a day on the whole days, at least 1.  The unit is
    in the plural exactly for counts above 1, and no count is ever 0. *)
Theorem formatDate_buckets now dateString date :
  dateTime dateString = Some date ->
  Z.abs (now - date) < 2 ^ 53 ->
  let age := now - date in
  (age < 3600000 -> formatDate dateTime now dateString = "Just now")
  /\ (3600000 <= age < 86400000 ->
      let hours := age / 3600000 in
      1 <= hours <= 23
      /\ formatDate dateTime now dateString
         = Js.numToString hours +:+ " hour" +:+ pluralEnding hours +:+ " ago")
  /\ (86400000 <= age ->
      let days := age / 86400000 in
      1 <= days
      /\ formatDate dateTime now dateString
         = Js.numToString days +:+ " day" +:+ pluralEnding days +:+ " ago").
Proof.
  intros Hdate _. cbv zeta. unfold formatDate. rewrite Hdate.
  change (1000 * 60 * 60) with 3600000.
  assert (Hdays : (now - date) / 3600000 / 24 = (now - date) / 86400000).
  { rewrite Z.div_div by lia. reflexivity. }
  split; [| split].
  - intros Hage.
    assert (H1 : (now - date) / 3600000 < 1)
      by (apply Z.div_lt_upper_bound; lia).
    destruct (Z.ltb_spec ((now - date) / 3600000) 1) as [_ | Hge];
      [reflexivity | lia].
  - intros [Hlo Hhi].
    assert (H1 : 1 <= (now - date) / 3600000)
      by (apply Z.div_le_lower_bound; lia).
    assert (H24 : (now - date) / 3600000 < 24)
      by (apply Z.div_lt_upper_bound; lia).
    split; [lia |].
    destruct (Z.ltb_spec ((now - date) / 3600000) 1); [lia |].
    destruct (Z.ltb_spec ((now - date) / 3600000) 24); [| lia].
    reflexivity.
  - intros Hlo.
    assert (H24 : 24 <= (now - date) / 3600000)
      by (apply Z.div_le_lower_bound; lia).
    assert (H1 : 1 <= (now - date) / 86400000)
      by (apply Z.div_le_lower_bound; lia).
    split; [exact H1 |].
    destruct (Z.ltb_spec ((now - date) / 3600000) 1); [lia |].
    destruct (Z.ltb_spec ((now - date) / 3600000) 24); [lia |].
    rewrite Hdays. reflexivity.
Qed.

End HomeScreenProperties.

(** ** Durations *)

Lemma append_cons (c : ascii) (s t : string) :
  String c s +:+ t = String c (s +:+ t).
Proof. reflexivity. Qed.

Lemma append_empty_l (t : string) : "" +:+ t = t.
Proof. reflexivity. Qed.

Lemma append_assoc (s t u : string) : (s +:+ t) +:+ u = s +:+ (t +:+ u).
Proof.
  induction s as [|c s IH]; [reflexivity |].
  rewrite !append_cons, IH. reflexivity.
Qed.

Ltac flatten_appends :=
  repeat (rewrite append_assoc || rewrite append_cons || rewrite append_empty_l).

Lemma takeDigits_run (digits : string) (c : ascii) (rest : string) :
  allDigits digits = true ->
  isDigit c = false ->
  takeDigits (digits +:+ String c rest) = (digits, String c rest).
Proof.
  intros Hdigits Hc. induction digits as [|d digits IH].
  - rewrite append_empty_l. simpl. rewrite Hc. reflexivity.
  - simpl in Hdigits. apply andb_true_iff in Hdigits as [Hd Hrest].
    rewrite append_cons. simpl. rewrite Hd, (IH Hrest). reflexivity.
Qed.

Lemma optionalGroup_found (letter : ascii) (digits rest : string) :
  digits <> "" ->
  allDigits digits = true ->
  isDigit letter = false ->
  optionalGroup letter (digits +:+ String letter rest) = (Some digits, rest).
Proof.
  intros Hne Hdigits Hletter. unfold optionalGroup.
  rewrite (takeDigits_run digits letter rest Hdigits Hletter).
  destruct digits as [|d digits]; [contradiction |].
  rewrite Ascii.eqb_refl. reflexivity.
Qed.

Lemma optionalGroup_other (letter c : ascii) (digits rest : string) :
  allDigits digits = true ->
  isDigit c = false ->
  c <> letter ->
  optionalGroup letter (digits +:+ String c rest)
  = (None, digits +:+ String c rest).
Proof.
  intros Hdigits Hc Hother. unfold optionalGroup.
  rewrite (takeDigits_run digits c rest Hdigits Hc).
  destruct digits as [|d digits]; [reflexivity |].
  apply Ascii.eqb_neq in Hother. rewrite Hother. reflexivity.
Qed.

Lemma trimEnd_ends_with (s : string) (c : ascii) :
  Js.isSpace c = false ->
  Js.trimEnd (s +:+ String c "") = s +:+ String c "".
Proof.
  intros Hc. induction s as [|a s IH].
  - rewrite append_empty_l. simpl. rewrite Hc. reflexivity.
  - rewrite append_cons. simpl. rewrite IH.
    destruct s as [|b s]; reflexivity.
Qed.

Lemma digit_is_not_space (c : ascii) : isDigit c = true -> Js.isSpace c = false.
Proof.
  unfold isDigit, Js.isSpace. intros Hd.
  apply andb_true_iff in Hd as [Hlo Hhi].
  apply Nat.leb_le in Hlo. apply Nat.leb_le in Hhi.
  apply orb_false_iff. split.
  - apply andb_false_iff. right. apply Nat.leb_gt. lia.
  - apply Nat.eqb_neq. lia.
Qed.

(** A text that starts with a digit and ends with a character that is no
    white space is its own trimming. *)
Lemma trim_digits_first (digits middle : string) (c : ascii) :
  digits <> "" ->
  allDigits digits = true ->
  Js.isSpace c = false ->
  Js.trim ((digits +:+ middle) +:+ String c "")
  = (digits +:+ middle) +:+ String c "".
Proof.
  intros Hne Hdigits Hc. unfold Js.trim.
  destruct digits as [|d digits]; [contradiction |].
  simpl in Hdigits. apply andb_true_iff in Hdigits as [Hd _].
  rewrite !append_cons. simpl Js.trimStart.
  rewrite (digit_is_not_space d Hd). rewrite <- append_cons.
  apply trimEnd_ends_with. exact Hc.
Qed.

Lemma afterPT_prefix (rest : string) : afterPT ("PT" +:+ rest) = Some rest.
Proof. reflexivity. Qed.

Lemma afterPT_found (s rest : string) :
  afterPT s = Some rest -> exists before, s = before +:+ "PT" +:+ rest.
Proof.
  revert rest. induction s as [|c t IH]; intros rest; [discriminate |].
  simpl. destruct t as [|d rest']; [discriminate |].
  destruct (Ascii.eqb c "P" && Ascii.eqb d "T")%bool eqn:Hpt.
  - intros [= <-]. apply andb_true_iff in Hpt as [Hp Ht].
    apply Ascii.eqb_eq in Hp. apply Ascii.eqb_eq in Ht. subst c d.
    exists "". reflexivity.
  - intros Hrest. destruct (IH rest Hrest) as [before Heq].
    exists (String c before). rewrite append_cons, <- Heq. reflexivity.
Qed.

Lemma afterPT_none (s : string) :
  afterPT s = None -> forall before rest, s <> before +:+ "PT" +:+ rest.
Proof.
  induction s as [|c t IH]; intros Hnone before rest Heq.
  - destruct before as [|b before].
    + rewrite append_empty_l in Heq.
      change ("PT" +:+ rest) with (String "P" (String "T" rest)) in Heq.
      discriminate Heq.
    + rewrite append_cons in Heq. discriminate Heq.
  - destruct before as [|b before].
    + rewrite append_empty_l in Heq.
      change ("PT" +:+ rest) with (String "P" (String "T" rest)) in Heq.
      injection Heq as -> ->. simpl in Hnone. discriminate Hnone.
    + rewrite append_cons in Heq. injection Heq as -> Ht.
      assert (Ht' : afterPT t = None).
      { destruct t as [|d r]; [reflexivity |].
        simpl in Hnone.
        destruct (Ascii.eqb b "P" && Ascii.eqb d "T")%bool;
          [discriminate Hnone | exact Hnone]. }
      exact (IH Ht' before rest Ht).
Qed.

(** X17.  For counts written in digits, [formatDuration] shows a duration of
    hours and minutes as the hours with an h, a space and the minutes with an
    m, a duration of hours only as the hours with an h, and a duration of
    minutes only as the minutes with an m, without the space before. *)
Theorem formatDuration_hours_and_minutes (hours minutes : string) :
  hours <> "" -> allDigits hours = true ->
  minutes <> "" -> allDigits minutes = true ->
  formatDuration ("PT" +:+ hours +:+ "H" +:+ minutes +:+ "M")
  = hours +:+ "h " +:+ minutes +:+ "m"
  /\ formatDuration ("PT" +:+ hours +:+ "H") = hours +:+ "h"
  /\ formatDuration ("PT" +:+ minutes +:+ "M") = minutes +:+ "m".
Proof.
  intros Hh Hhd Hm Hmd. unfold formatDuration. rewrite !afterPT_prefix.
  split; [| split].
  - change (hours +:+ "H" +:+ minutes +:+ "M")
      with (hours +:+ String "H" (minutes +:+ String "M" "")).
    rewrite (optionalGroup_found "H" hours _ Hh Hhd eq_refl).
    cbv beta iota zeta.
    rewrite (optionalGroup_found "M" minutes _ Hm Hmd eq_refl).
    cbv beta iota zeta.
    assert (Hshape : (hours +:+ "h") +:+ " " +:+ minutes +:+ "m"
                     = (hours +:+ "h " +:+ minutes) +:+ String "m" "")
      by (flatten_appends; reflexivity).
    rewrite Hshape, (trim_digits_first hours _ "m" Hh Hhd eq_refl).
    flatten_appends. reflexivity.
  - change (hours +:+ "H") with (hours +:+ String "H" "").
    rewrite (optionalGroup_found "H" hours _ Hh Hhd eq_refl).
    cbv beta iota zeta.
    change (optionalGroup "M" "") with (@None string, "").
    cbv beta iota zeta.
    assert (Hshape : (hours +:+ "h") +:+ "" = (hours +:+ "") +:+ String "h" "")
      by (flatten_appends; reflexivity).
    rewrite Hshape, (trim_digits_first hours "" "h" Hh Hhd eq_refl).
    flatten_appends. reflexivity.
  - change (minutes +:+ "M") with (minutes +:+ String "M" "").
    rewrite (optionalGroup_other "H" "M" minutes "" Hmd eq_refl)
      by discriminate.
    cbv beta iota zeta.
    rewrite (optionalGroup_found "M" minutes _ Hm Hmd eq_refl).
    cbv beta iota zeta.
    change ("" +:+ " " +:+ minutes +:+ "m")
      with (String " " (minutes +:+ "m")).
    unfold Js.trim. simpl Js.trimStart.
    assert (Hshape : minutes +:+ "m" = (minutes +:+ "") +:+ String "m" "")
      by (flatten_appends; reflexivity).
    rewrite Hshape at 1.
    change (Js.trimEnd (Js.trimStart ((minutes +:+ "") +:+ String "m" "")))
      with (Js.trim ((minutes +:+ "") +:+ String "m" "")).
    rewrite (trim_digits_first minutes "" "m" Hm Hmd eq_refl).
    flatten_appends. reflexivity.
Qed.

(** X18.  A text without "PT" in it is shown as it is: so is every duration
    with a part in days, which has at least a digit between the P and the
    T. *)
Theorem formatDuration_without_PT (duration : string) :
  (forall before rest, duration <> before +:+ "PT" +:+ rest) ->
  formatDuration duration = duration.
Proof.
  intros Hnone. unfold formatDuration.
  destruct (afterPT duration) as [rest|] eqn:Hafter; [| reflexivity].
  destruct (afterPT_found duration rest Hafter) as [before Heq].
  exfalso. exact (Hnone before rest Heq).
Qed.

(** X19.  A duration of seconds only is shown as the empty text: neither
    group of the pattern matches, and nothing of the duration is kept. *)
Theorem formatDuration_seconds_only (seconds : string) :
  allDigits seconds = true ->
  formatDuration ("PT" +:+ seconds +:+ "S") = "".
Proof.
  intros Hsd. unfold formatDuration. rewrite afterPT_prefix.
  change (seconds +:+ "S") with (seconds +:+ String "S" "").
  rewrite (optionalGroup_other "H" "S" seconds "" Hsd eq_refl) by discriminate.
  cbv beta iota zeta.
  rewrite (optionalGroup_other "M" "S" seconds "" Hsd eq_refl) by discriminate.
  reflexivity.
Qed.

(** ** The further properties on concrete inputs *)

Lemma cleared_recent_searches_read_empty_witness :
  storage (clearRecentSearches reliable usedWorld) !! RECENT_SEARCHES_KEY = None
  /\ snd (getRecentSearches unreadable (clearRecentSearches reliable usedWorld))
     = JArr [].
Proof.
  destruct (cleared_recent_searches_read_empty reliable unreadable usedWorld)
    as (Hgone & _ & Hread).
  - reflexivity.
  - split; [exact Hgone | exact Hread].
Defined.

Lemma searchFlights_keeps_other_keys_witness :
  storage (fst (searchFlights isoCalendarDate Js.asciiUpperCase "" upstreamWithoutData reliable
                  sampleClock usedWorld sampleRequest)) !! POPULAR_ROUTES_KEY
  = storage usedWorld !! POPULAR_ROUTES_KEY.
Proof.
  apply (searchFlights_keeps_other_keys isoCalendarDate Js.asciiUpperCase "" upstreamWithoutData
           reliable sampleClock usedWorld sampleRequest POPULAR_ROUTES_KEY).
  discriminate.
Defined.

Lemma saved_search_is_read_back_witness :
  exists stored,
    snd (getRecentSearches reliable
           (saveRecentSearch reliable sampleClock usedWorld sampleRequest))
    = JArr stored
    /\ stored !! 0%nat = Some (newRecentSearch sampleClock sampleRequest).
Proof.
  destruct (saved_search_is_read_back sampleClock usedWorld sampleRequest
              [JStr "second"; JStr "first"])
    as (stored & Hread & _ & Hfirst & _).
  - vm_compute. reflexivity.
  - exists stored. split; [exact Hread | exact Hfirst].
Defined.

Lemma unreadable_recent_searches_never_repaired_witness :
  storage (fst (searchAll isoCalendarDate Js.asciiUpperCase "" upstreamWithoutData reliable
                  corruptWorld elevenSearches)) !! RECENT_SEARCHES_KEY
  = Some (Malformed "[{").
Proof.
  refine (proj1 (unreadable_recent_searches_never_repaired isoCalendarDate Js.asciiUpperCase ""
                   upstreamWithoutData reliable corruptWorld elevenSearches
                   (Malformed "[{") _ _ _)).
  - vm_compute. reflexivity.
  - reflexivity.
  - intros items. discriminate.
Defined.

Lemma rejected_searches_are_not_recorded_witness :
  storage (fst (searchAll isoCalendarDate Js.asciiUpperCase "" upstreamBroken reliable usedWorld
                  threeSearches))
  = storage usedWorld.
Proof.
  refine (proj1 (rejected_searches_are_not_recorded isoCalendarDate Js.asciiUpperCase ""
                   upstreamBroken reliable usedWorld threeSearches _)).
  intros url body. eexists. eexists. reflexivity.
Defined.

Lemma search_with_null_body_is_recorded_witness :
  snd (searchFlights isoCalendarDate Js.asciiUpperCase "Cannot read property 'data' of null"
         upstreamNull reliable sampleClock emptyWorld sampleRequest)
  = Thrown "Flight search failed: Cannot read property 'data' of null"
  /\ storage (fst (searchFlights isoCalendarDate Js.asciiUpperCase
                     "Cannot read property 'data' of null" upstreamNull
                     reliable sampleClock emptyWorld sampleRequest))
       !! RECENT_SEARCHES_KEY
     = Some (Serialized (JArr [newRecentSearch sampleClock sampleRequest])).
Proof.
  apply (search_with_null_body_is_recorded isoCalendarDate Js.asciiUpperCase
           "Cannot read property 'data' of null" upstreamNull sampleClock
           emptyWorld sampleRequest sampleBackendRequest
           {| resp_status := 200; resp_data := JNull |} []).
  - vm_compute. reflexivity.
  - reflexivity.
  - reflexivity.
  - reflexivity.
Defined.

Lemma short_run_keeps_every_record_witness :
  storage (fst (searchAll isoCalendarDate Js.asciiUpperCase "" upstreamWithoutData reliable
                  usedWorld threeSearches)) !! RECENT_SEARCHES_KEY
  = Some (Serialized (JArr (reverse (recordsOf threeSearches)
                            ++ [JStr "second"; JStr "first"]))).
Proof.
  apply (short_run_keeps_every_record isoCalendarDate Js.asciiUpperCase "" upstreamWithoutData
           usedWorld threeSearches [JStr "second"; JStr "first"]).
  - vm_compute. reflexivity.
  - vm_compute. reflexivity.
  - discriminate.
  - simpl. lia.
Defined.

Lemma successful_search_refreshes_recent_searches_witness :
  recentSearches
    (snd (FlightContext_searchFlights isoCalendarDate Js.asciiUpperCase "" upstreamWithoutData
            reliable reliable sampleClock usedWorld initialFlightState
            sampleRequest))
  = JArr [newRecentSearch sampleClock sampleRequest; JStr "second"; JStr "first"].
Proof.
  refine (proj1 (successful_search_refreshes_recent_searches isoCalendarDate Js.asciiUpperCase ""
                   upstreamWithoutData sampleClock usedWorld initialFlightState
                   sampleRequest sampleBackendRequest
                   {| resp_status := 200;
                      resp_data := JObj [("success", JBool true)] |}
                   [JStr "second"; JStr "first"] _ _ _ _)).
  - vm_compute. reflexivity.
  - reflexivity.
  - discriminate.
  - vm_compute. reflexivity.
Defined.

Lemma failed_search_still_opens_results_witness :
  snd (handleSearch isoCalendarDate Js.asciiUpperCase "" upstreamBroken reliable reliable
         sampleClock emptyWorld initialFlightState sampleRequest)
  = FlightResults sampleRequest
  /\ searchError
       (snd (fst (handleSearch isoCalendarDate Js.asciiUpperCase "" upstreamBroken reliable
                    reliable sampleClock emptyWorld initialFlightState
                    sampleRequest)))
     = Some "Flight search failed: Provider unavailable".
Proof.
  destruct (failed_search_still_opens_results isoCalendarDate Js.asciiUpperCase "" upstreamBroken
              reliable reliable sampleClock emptyWorld initialFlightState
              sampleRequest "Flight search failed: Provider unavailable")
    as (Hshown & Herror & _).
  - discriminate.
  - discriminate.
  - discriminate.
  - discriminate.
  - vm_compute. reflexivity.
  - split; [exact Hshown | exact Herror].
Defined.

Lemma failed_clear_is_undone_by_reload_witness :
  recentSearches
    (snd (FlightContext_clearRecentSearches undeletable usedWorld
            initialFlightState)) = JArr []
  /\ recentSearches
       (snd (FlightContext_getRecentSearches reliable
               (fst (FlightContext_clearRecentSearches undeletable usedWorld
                       initialFlightState))
               (snd (FlightContext_clearRecentSearches undeletable usedWorld
                       initialFlightState))))
     = JArr [JStr "second"; JStr "first"].
Proof.
  destruct (failed_clear_is_undone_by_reload undeletable usedWorld
              initialFlightState [JStr "second"; JStr "first"])
    as (Hstate & _ & Hreload).
  - reflexivity.
  - vm_compute. reflexivity.
  - split; [exact Hstate | exact Hreload].
Defined.

Lemma selected_airports_pass_the_checks_witness :
  exists br,
    buildBackendRequest isoCalendarDate Js.asciiUpperCase
      (searchRequest
         (handleAirportSelect heathrow
            (openAirportModal DestinationAirport
               (handleAirportSelect kennedy
                  (openAirportModal OriginAirport
                     (withSearchRequest sampleRequest initialScreen))))))
    = Returned br
    /\ originSkyId br = "JFK"
    /\ destinationSkyId br = "LHR"
    /\ backend_destinationEntityId br = Some "95565050".
Proof.
  destruct (selected_airports_pass_the_checks isoCalendarDate Js.asciiUpperCase kennedy heathrow
              (withSearchRequest sampleRequest initialScreen))
    as ((br & Hb & Ho & Hd & _ & Hde) & _).
  - discriminate.
  - discriminate.
  - discriminate.
  - discriminate.
  - vm_compute. reflexivity.
  - exists br. split; [exact Hb |]. split; [exact Ho |].
    split; [exact Hd | exact Hde].
Defined.

Lemma formatDate_buckets_witness :
  formatDate sampleDateTime 1735781400000 "2025-01-02T00:00:00.000Z"
  = "1 hour ago".
Proof.
  destruct (formatDate_buckets sampleDateTime 1735781400000
              "2025-01-02T00:00:00.000Z" 1735776000000)
    as (_ & Hhours & _).
  - reflexivity.
  - vm_compute. reflexivity.
  - destruct Hhours as [_ ->]; [lia |].
    vm_compute. reflexivity.
Defined.

Lemma formatDuration_hours_and_minutes_witness :
  formatDuration "PT5H30M" = "5h 30m"
  /\ formatDuration "PT5H" = "5h"
  /\ formatDuration "PT30M" = "30m".
Proof.
  apply (formatDuration_hours_and_minutes "5" "30");
    (discriminate || reflexivity).
Defined.

Lemma formatDuration_without_PT_witness :
  formatDuration "P1DT2H30M" = "P1DT2H30M".
Proof.
  apply (formatDuration_without_PT "P1DT2H30M").
  apply afterPT_none. reflexivity.
Defined.

Lemma formatDuration_seconds_only_witness : formatDuration "PT45S" = "".
Proof. apply (formatDuration_seconds_only "45"). reflexivity. Defined.
